(** * widgetwatch: the data-acquisition core of the flight dashboard

    A shallow embedding of the two serverless handlers of the repository,
    [src/unnamed/part_000] (the schedule endpoint) and
    [src/api/flight-times.js] (the flight-times endpoint), and the
    properties their specification states about them.

    Conventions.
    - JavaScript numbers that hold clock readings, epochs, sizes and page
      numbers are integers in every run of the handlers and are modelled
      as [Z]; [NaN] is an explicit constructor where [parseInt] can
      produce it.
    - JavaScript strings are modelled as [string]; the character classes
      the code uses ([\s], [\d], [toUpperCase]) are modelled on ASCII.
    - [Date.now()] is an explicit argument of every function that reads
      the clock; module-level mutable state ([cache], [lastFR24Request],
      [rateLimitByIp]) is passed in and returned.
    - A JavaScript [Map] whose iteration order the code relies on (the two
      caches) is an insertion-ordered association list; the per-client log
      map, whose order is never observed, is a [gmap]. *)

From Stdlib Require Import ZArith String Ascii List Lia Bool DecimalString.
From stdpp Require Import base option list sorting gmap strings.

Local Open Scope string_scope.
Local Open Scope Z_scope.

(** ** Insertion-ordered maps (JavaScript [Map] with string keys) *)

Module OMap.
Section Ops.
Context {V : Type}.

Definition t := list (string * V).

Definition empty : t := [].

(** [m.get(k)] *)
Fixpoint get (k : string) (m : t) : option V :=
  match m with
  | [] => None
  | (k', v) :: m' => if String.eqb k k' then Some v else get k m'
  end.

(** [m.set(k, v)]: an existing key keeps its place in the iteration
    order, a new key goes last. *)
Fixpoint set (k : string) (v : V) (m : t) : t :=
  match m with
  | [] => [(k, v)]
  | (k', v') :: m' =>
      if String.eqb k k' then (k, v) :: m' else (k', v') :: set k v m'
  end.

(** [m.delete(k)]: no entry of the key is left (a [Map] has at most
    one). *)
Fixpoint delete (k : string) (m : t) : t :=
  match m with
  | [] => []
  | (k', v') :: m' =>
      if String.eqb k k' then delete k m' else (k', v') :: delete k m'
  end.

(** [m.size] *)
Definition size (m : t) : Z := Z.of_nat (length m).

(** [m.keys()] in iteration order *)
Definition keys (m : t) : list string := map fst m.

(** [m.delete(m.keys().next().value)]: on an empty map the key is
    [undefined], which no entry has, and nothing is deleted. *)
Definition delete_first (m : t) : t :=
  match keys m with
  | [] => m
  | k :: _ => delete k m
  end.
End Ops.
Arguments t : clear implicits.
End OMap.


(** ** The JavaScript fragment the handlers use *)

Module JS.

(** Exceptions the modelled code can raise. [OutOfFuel] is not a
    JavaScript exception: it marks the exhaustion of the fuel of a loop of
    the model, and is shown never to occur. *)
Inductive exn :=
| TypeError
| RangeError
| AbortError
| Error (msg : string)
| OutOfFuel.

Inductive result (A : Type) :=
| Ok (a : A)
| Throw (e : exn).
Arguments Ok {A} a.
Arguments Throw {A} e.

(** Values a query parameter or a function argument can take. *)
#[warnings="-register-all"]
Inductive value :=
| VUndefined
| VNull
| VNum (n : Z)
| VStr (s : string)
| VArr (l : list value).

(** [ToBoolean] *)
Definition truthy (v : value) : bool :=
  match v with
  | VUndefined | VNull => false
  | VNum n => negb (n =? 0)
  | VStr s => negb (String.eqb s "")
  | VArr _ => true
  end.

(** Numbers that may be [NaN] (the results of [parseInt]). *)
Inductive num :=
| NaN
| Int (n : Z).

(** White space of [\s], [trim] and [parseInt], on ASCII: TAB, LF, VT, FF,
    CR and space. *)
Definition isSpace (c : ascii) : bool :=
  let n := nat_of_ascii c in
  ((9 <=? n)%nat && (n <=? 13)%nat) || (n =? 32)%nat.

Definition isDigit (c : ascii) : bool :=
  let n := nat_of_ascii c in (48 <=? n)%nat && (n <=? 57)%nat.

Definition isLower (c : ascii) : bool :=
  let n := nat_of_ascii c in (97 <=? n)%nat && (n <=? 122)%nat.

Definition upperChar (c : ascii) : ascii :=
  if isLower c then ascii_of_nat (nat_of_ascii c - 32) else c.

(** [s.toUpperCase()] *)
Fixpoint toUpperCase (s : string) : string :=
  match s with
  | EmptyString => EmptyString
  | String c s' => String (upperChar c) (toUpperCase s')
  end.

Fixpoint trimStart (s : string) : string :=
  match s with
  | EmptyString => EmptyString
  | String c s' => if isSpace c then trimStart s' else s
  end.

Fixpoint trimEnd (s : string) : string :=
  match s with
  | EmptyString => EmptyString
  | String c s' =>
      match trimEnd s' with
      | EmptyString => if isSpace c then EmptyString else String c EmptyString
      | r => String c r
      end
  end.

(** [s.trim()] *)
Definition trim (s : string) : string := trimEnd (trimStart s).

(** [s.replace(/\s+/g, '')] *)
Fixpoint removeSpaces (s : string) : string :=
  match s with
  | EmptyString => EmptyString
  | String c s' =>
      if isSpace c then removeSpaces s' else String c (removeSpaces s')
  end.

(** No character of [s] is white space. *)
Fixpoint noSpaces (s : string) : bool :=
  match s with
  | EmptyString => true
  | String c s' => negb (isSpace c) && noSpaces s'
  end.

(** A string is clean when it has no white space and no lower-case
    letter: [trim], [toUpperCase] and the removal of white space leave it
    as it is. *)
Definition clean (s : string) : Prop :=
  noSpaces s = true /\ toUpperCase s = s.

(** [s.startsWith(p)] *)
Fixpoint startsWith (p s : string) : bool :=
  match p, s with
  | EmptyString, _ => true
  | String a p', String b s' => Ascii.eqb a b && startsWith p' s'
  | String _ _, EmptyString => false
  end.

(** [s.slice(n)] for [n >= 0] *)
Fixpoint slice (n : nat) (s : string) : string :=
  match n, s with
  | O, _ => s
  | S n', String _ s' => slice n' s'
  | S _, EmptyString => EmptyString
  end.

Fixpoint allDigits (s : string) : bool :=
  match s with
  | EmptyString => true
  | String c s' => isDigit c && allDigits s'
  end.

(** [/^\d{1,4}$/.test(s)] *)
Definition isDigits1to4 (s : string) : bool :=
  (1 <=? String.length s)%nat && (String.length s <=? 4)%nat && allDigits s.

(** [s.split(',')[0]] *)
Fixpoint beforeComma (s : string) : string :=
  match s with
  | EmptyString => EmptyString
  | String c s' =>
      if Ascii.eqb c "," then EmptyString else String c (beforeComma s')
  end.

(** The value of a digit in radix 10 or 16, if it is one. *)
Definition digitValue (radix : Z) (c : ascii) : option Z :=
  let n := Z.of_nat (nat_of_ascii c) in
  if (48 <=? n) && (n <=? 57) then Some (n - 48)
  else if (radix =? 16) && (97 <=? n) && (n <=? 102) then Some (n - 87)
  else if (radix =? 16) && (65 <=? n) && (n <=? 70) then Some (n - 55)
  else None.

(** The longest prefix of digits of the radix, as a number; [None] when
    the prefix is empty. *)
Fixpoint digitsPrefix (radix : Z) (acc : option Z) (s : string) : option Z :=
  match s with
  | EmptyString => acc
  | String c s' =>
      match digitValue radix c with
      | None => acc
      | Some d => digitsPrefix radix (Some (radix * default 0 acc + d)) s'
      end
  end.

Definition numOfOption (o : option Z) : num :=
  match o with
  | None => NaN
  | Some n => Int n
  end.

Definition negNum (x : num) : num :=
  match x with
  | NaN => NaN
  | Int n => Int (- n)
  end.

Definition parseUnsigned (s : string) : num :=
  match s with
  | String "0" (String "x" s') | String "0" (String "X" s') =>
      numOfOption (digitsPrefix 16 None s')
  | _ => numOfOption (digitsPrefix 10 None s)
  end.

(** [parseInt(s)] with no radix argument: leading white space, an
    optional sign, an optional [0x], then the longest prefix of digits. *)
Definition parseInt (s : string) : num :=
  match trimStart s with
  | String "-" s' => negNum (parseUnsigned s')
  | String "+" s' => parseUnsigned s'
  | s' => parseUnsigned s'
  end.

(** Decimal digits of a natural number below [10 ^ k], zero-padded to
    [k] characters. *)
Fixpoint pad (k : nat) (n : Z) : string :=
  match k with
  | O => EmptyString
  | S k' =>
      pad k' (n / 10) ++ String (ascii_of_nat (Z.to_nat (48 + n mod 10))) EmptyString
  end.

(** [String(n)] for an integer [n] *)
Definition showZ (n : Z) : string :=
  DecimalString.NilZero.string_of_int (Z.to_int n).

(** [String(v)], as template literals and [parseInt] apply it; inside an
    array, [null] and [undefined] print as the empty string. *)
Fixpoint toString (v : value) : string :=
  match v with
  | VUndefined => "undefined"
  | VNull => "null"
  | VNum n => showZ n
  | VStr s => s
  | VArr l =>
      String.concat ","
        (map (fun x => match x with
                       | VUndefined | VNull => EmptyString
                       | _ => toString x
                       end) l)
  end.

(** [String(x)] *)
Definition showNum (x : num) : string :=
  match x with
  | NaN => "NaN"
  | Int n => showZ n
  end.

(** [s] without the prefix [p], when it starts with it *)
Fixpoint stripPrefix (p s : string) : option string :=
  match p, s with
  | EmptyString, _ => Some s
  | String a p', String b s' =>
      if Ascii.eqb a b then stripPrefix p' s' else None
  | String _ _, EmptyString => None
  end.

(** [s.replace(pat, rep)] for a string pattern: the first occurrence of
    [pat] is replaced. *)
Fixpoint replaceFirst (pat rep s : string) : string :=
  match stripPrefix pat s with
  | Some rest => rep ++ rest
  | None =>
      match s with
      | EmptyString => EmptyString
      | String c s' => String c (replaceFirst pat rep s')
      end
  end.

(** The characters of [s] after its leading digits *)
Fixpoint dropDigits (s : string) : string :=
  match s with
  | EmptyString => EmptyString
  | String c s' => if isDigit c then dropDigits s' else s
  end.

(** The number of leading digits of [s] *)
Fixpoint countDigits (s : string) : nat :=
  match s with
  | EmptyString => O
  | String c s' => if isDigit c then S (countDigits s') else O
  end.

(** [c] is a letter, which is what [[A-Z]] matches under the flag [i] *)
Definition isLetter (c : ascii) : bool :=
  let n := nat_of_ascii (upperChar c) in (65 <=? n)%nat && (n <=? 90)%nat.

(** Equality of characters under the flag [i] *)
Definition eqbIgnoreCase (a b : ascii) : bool :=
  Ascii.eqb (upperChar a) (upperChar b).

End JS.

(** ** [Date]: time values and [toISOString] (ECMAScript 21.4.1)

    Modelled from the ECMAScript specification: [Date] is the platform's,
    not the repository's.  A time value is a number of milliseconds since
    the epoch. *)

Module JSDate.

Definition msPerDay : Z := 86400000.

Definition Day (t : Z) : Z := t / msPerDay.

Definition TimeWithinDay (t : Z) : Z := t mod msPerDay.

Definition DaysInYear (y : Z) : Z :=
  if negb (y mod 4 =? 0) then 365
  else if negb (y mod 100 =? 0) then 366
  else if negb (y mod 400 =? 0) then 365
  else 366.

Definition DayFromYear (y : Z) : Z :=
  365 * (y - 1970) + (y - 1969) / 4 - (y - 1901) / 100 + (y - 1601) / 400.

Definition TimeFromYear (y : Z) : Z := msPerDay * DayFromYear y.

(** The largest [y] with [TimeFromYear y <= t]: the mean length of a year
    gives the year up to one, and the neighbours are tried. *)
Definition YearFromTime (t : Z) : Z :=
  let d := Day t in
  let y := 1970 + (d * 400) / 146097 in
  if d <? DayFromYear y then y - 1
  else if DayFromYear (y + 1) <=? d then y + 1
  else y.

Definition InLeapYear (t : Z) : Z :=
  if DaysInYear (YearFromTime t) =? 366 then 1 else 0.

Definition DayWithinYear (t : Z) : Z := Day t - DayFromYear (YearFromTime t).

(** 0 is January *)
Definition MonthFromTime (t : Z) : Z :=
  let d := DayWithinYear t in
  let leap := InLeapYear t in
  if d <? 31 then 0
  else if d <? 59 + leap then 1
  else if d <? 90 + leap then 2
  else if d <? 120 + leap then 3
  else if d <? 151 + leap then 4
  else if d <? 181 + leap then 5
  else if d <? 212 + leap then 6
  else if d <? 243 + leap then 7
  else if d <? 273 + leap then 8
  else if d <? 304 + leap then 9
  else if d <? 334 + leap then 10
  else 11.

Definition DateFromTime (t : Z) : Z :=
  let d := DayWithinYear t in
  let leap := InLeapYear t in
  match MonthFromTime t with
  | 0 => d + 1
  | 1 => d - 30
  | 2 => d - 58 - leap
  | 3 => d - 89 - leap
  | 4 => d - 119 - leap
  | 5 => d - 150 - leap
  | 6 => d - 180 - leap
  | 7 => d - 211 - leap
  | 8 => d - 242 - leap
  | 9 => d - 272 - leap
  | 10 => d - 303 - leap
  | _ => d - 333 - leap
  end.

Definition HourFromTime (t : Z) : Z := (t / 3600000) mod 24.
Definition MinFromTime (t : Z) : Z := (t / 60000) mod 60.
Definition SecFromTime (t : Z) : Z := (t / 1000) mod 60.
Definition msFromTime (t : Z) : Z := t mod 1000.

(** [TimeClip]: a time value beyond 8.64e15 ms is [NaN]. *)
Definition TimeClip (t : Z) : JS.num :=
  if 8640000000000000 <? Z.abs t then JS.NaN else JS.Int t.

(** The year of the ISO format: four digits from 0 to 9999, otherwise a
    sign and six digits. *)
Definition isoYear (y : Z) : string :=
  if (0 <=? y) && (y <=? 9999) then JS.pad 4 y
  else (if y <? 0 then "-" else "+") ++ JS.pad 6 (Z.abs y).

(** [YYYY-MM-DDTHH:mm:ss.sssZ] for a time value *)
Definition isoOfTime (t : Z) : string :=
  isoYear (YearFromTime t) ++ "-" ++ JS.pad 2 (MonthFromTime t + 1) ++ "-"
    ++ JS.pad 2 (DateFromTime t) ++ "T" ++ JS.pad 2 (HourFromTime t) ++ ":"
    ++ JS.pad 2 (MinFromTime t) ++ ":" ++ JS.pad 2 (SecFromTime t) ++ "."
    ++ JS.pad 3 (msFromTime t) ++ "Z".

(** [new Date(v).toISOString()]: an invalid date raises a [RangeError]. *)
Definition toISOString (v : Z) : JS.result string :=
  match TimeClip v with
  | JS.NaN => JS.Throw JS.RangeError
  | JS.Int t => JS.Ok (isoOfTime t)
  end.

(** *** The calendar, stated independently

    The civil calendar as it is defined: years of 365 or 366 days counted
    from 1970, months with their lengths.  [toISOString] is checked
    against it. *)

Definition isLeap (y : Z) : bool :=
  (y mod 4 =? 0) && (negb (y mod 100 =? 0) || (y mod 400 =? 0)).

(** The lengths of the twelve months of year [y] *)
Definition monthLengths (y : Z) : list Z :=
  [31; if isLeap y then 29 else 28; 31; 30; 31; 30; 31; 31; 30; 31; 30; 31].

(** The days of the years 1970 to [1970 + n - 1] *)
Fixpoint daysOfYears (n : nat) : Z :=
  match n with
  | O => 0
  | S n' => daysOfYears n' + (if isLeap (1970 + Z.of_nat n') then 366 else 365)
  end.

(** The days of the first [m] months of year [y] *)
Definition daysBeforeMonth (y : Z) (m : nat) : Z :=
  fold_right Z.add 0 (take m (monthLengths y)).

Record civil := Civil {
  c_year : Z; c_month : Z; c_day : Z;
  c_hour : Z; c_min : Z; c_sec : Z; c_ms : Z
}.

(** A date of the calendar, in 1970 or later: month 1 to 12, day within
    the month, time of day within its bounds. *)
Definition validCivil (c : civil) : Prop :=
  1970 <= c_year c /\ 1 <= c_month c <= 12
  /\ 1 <= c_day c
       <= nth (Z.to_nat (c_month c - 1)) (monthLengths (c_year c)) 0
  /\ 0 <= c_hour c < 24 /\ 0 <= c_min c < 60 /\ 0 <= c_sec c < 60
  /\ 0 <= c_ms c < 1000.

(** The milliseconds from 1970-01-01T00:00:00.000Z to a date *)
Definition civilToTime (c : civil) : Z :=
  (((daysOfYears (Z.to_nat (c_year c - 1970))
      + daysBeforeMonth (c_year c) (Z.to_nat (c_month c - 1))
      + (c_day c - 1)) * 24 + c_hour c) * 60 + c_min c) * 60000
  + c_sec c * 1000 + c_ms c.

(** The number a string of decimal digits denotes; [None] if a character
    is not a digit. *)
Fixpoint readDigits (acc : Z) (s : string) : option Z :=
  match s with
  | EmptyString => Some acc
  | String c s' =>
      if JS.isDigit c
      then readDigits (10 * acc + (Z.of_nat (nat_of_ascii c) - 48)) s'
      else None
  end.

(** [s] is the ISO-8601 UTC notation of the date [c]:
    [YYYY-MM-DDTHH:mm:ss.sssZ], the year with four digits, or with a plus
    sign and six digits. *)
Definition denotes (s : string) (c : civil) : Prop :=
  exists y mo d h mi se ms : string,
    s = y ++ "-" ++ mo ++ "-" ++ d ++ "T" ++ h ++ ":" ++ mi ++ ":" ++ se
          ++ "." ++ ms ++ "Z"
    /\ (String.length mo = 2 /\ String.length d = 2 /\ String.length h = 2
        /\ String.length mi = 2 /\ String.length se = 2
        /\ String.length ms = 3)%nat
    /\ ((String.length y = 4%nat /\ readDigits 0 y = Some (c_year c))
        \/ (exists y', y = "+" ++ y' /\ String.length y' = 6%nat
                       /\ 9999 < c_year c
                       /\ readDigits 0 y' = Some (c_year c)))
    /\ readDigits 0 mo = Some (c_month c)
    /\ readDigits 0 d = Some (c_day c)
    /\ readDigits 0 h = Some (c_hour c)
    /\ readDigits 0 mi = Some (c_min c)
    /\ readDigits 0 se = Some (c_sec c)
    /\ readDigits 0 ms = Some (c_ms c).

End JSDate.

(** ** The schedule endpoint, [src/unnamed/part_000] *)

Module Schedule.

Definition MAX_CACHE_SIZE : Z := 200.
Definition MIN_REQUEST_INTERVAL : Z := 2000.

Section Cache.
Context {D : Type}.

(** [{ data, expires, time }] *)
Record entry := Entry { data : D; expires : Z; time : Z }.

Definition cache := OMap.t entry.

(** [cacheGet(key)] at clock reading [now]: the returned entry (or
    [None] for [null]) and the cache afterwards. *)
Definition cacheGet (now : Z) (key : string) (c : cache)
  : option entry * cache :=
  match OMap.get key c with
  | None => (None, c)
  | Some e =>
      if now >? expires e then (None, OMap.delete key c)
      else (Some e, c)
  end.

(** [cacheSet(key, data, ttlMs)]; [now_e] and [now_t] are the two
    readings of [Date.now()] in the object literal. *)
Definition cacheSet (now_e now_t : Z) (key : string) (d : D) (ttlMs : Z)
    (c : cache) : cache :=
  let c1 := if OMap.size c >=? MAX_CACHE_SIZE then OMap.delete_first c
            else c in
  OMap.set key (Entry d (now_e + ttlMs) now_t) c1.

(** A call of [cacheSet] with its arguments and its clock readings *)
Record write := Write {
  w_key : string; w_data : D; w_ttl : Z; w_now_e : Z; w_now_t : Z
}.

Definition entryOf (w : write) : entry :=
  Entry (w_data w) (w_now_e w + w_ttl w) (w_now_t w).

(** Successive calls of [cacheSet] *)
Definition cacheSets (ws : list write) (c : cache) : cache :=
  fold_left (fun c w =>
               cacheSet (w_now_e w) (w_now_t w) (w_key w) (w_data w)
                 (w_ttl w) c) ws c.
End Cache.
Arguments entry : clear implicits.
Arguments cache : clear implicits.
Arguments write : clear implicits.

(** *** The global rate limiter *)

(** [wait] of [rateLimitedFetch], from [lastFR24Request] and the reading
    [now] of its first line. *)
Definition rateLimitWait (last now : Z) : Z :=
  Z.max 0 (MIN_REQUEST_INTERVAL - (now - last)).

(** One acquire: [now] is the reading on entry, [after] the reading of
    [lastFR24Request = Date.now()], taken once the wait (if any) is over
    and immediately before [fetch] is called.  The result is the wait
    requested from the timer and the new [lastFR24Request], which is
    also the time at which the upstream call is dispatched. *)
Definition rateLimitedFetch_acquire (last now after : Z) : Z * Z :=
  (rateLimitWait last now, after).

(** A sequence of acquires, each with its two readings: the successive
    values of [lastFR24Request], that is the dispatch times. *)
Fixpoint dispatches (last : Z) (readings : list (Z * Z)) : list Z :=
  match readings with
  | [] => []
  | (now, after) :: rest =>
      let last' := snd (rateLimitedFetch_acquire last now after) in
      last' :: dispatches last' rest
  end.

(** Readings of sequential acquires: the clock does not go back (each
    acquire starts at or after [clock], the time the previous one
    dispatched), and the reading after the wait is at least the wait
    later than the reading before it. *)
Fixpoint sequential (clock last : Z) (readings : list (Z * Z)) : Prop :=
  match readings with
  | [] => True
  | (now, after) :: rest =>
      clock <= now
      /\ now + fst (rateLimitedFetch_acquire last now after) <= after
      /\ sequential after (snd (rateLimitedFetch_acquire last now after)) rest
  end.

(** Any two consecutive times of the list are at least [gap] apart. *)
Fixpoint gapsAtLeast (gap : Z) (times : list Z) : Prop :=
  match times with
  | a :: (b :: _) as rest => gap <= b - a /\ gapsAtLeast gap rest
  | _ => True
  end.

(** *** Upstream data *)

(** A flight of a schedule page: the fields the aggregator reads, and its
    flight number as the rest of the object. *)
Record flight := Flight {
  flight_number : string;
  airline_iata : option string;   (* fl.airline?.code?.iata *)
  sched_departure : option Z;     (* fl.time?.scheduled?.departure *)
  sched_arrival : option Z        (* fl.time?.scheduled?.arrival *)
}.

(** The schedule object of a page: [sched.page?.total] and [sched.data],
    each entry given by its [.flight]. *)
Record sched := Sched {
  page_total : option Z;
  sched_data : option (list (option flight))
}.

(** What [fetch] does for one page: it is aborted by the 8 s timer, fails,
    or answers with a status and a body in which the schedule of the asked
    direction may be missing.  A body that is not JSON makes [resp.json()]
    raise an error with a message once the status has been accepted, which
    the handler treats as it treats a failed fetch: it is a [NetError]
    here. *)
Inductive response :=
| NetAbort
| NetError (msg : string)
| Http (status : Z) (schedule : option sched).

Record agg_result := AggResult {
  flights : list flight;
  total : Z;
  totalFetched : Z;
  pagesScanned : Z;
  totalPages : Z;
  r_hub : string;
  r_dir : string
}.

Inductive cached_data :=
| DPage (s : sched)
| DAgg (r : agg_result).

Inductive body :=
| BError (msg : string)
| BJson (d : cached_data) (cached : bool).

(** [res.status(..).json(..)], with the [s-maxage] of the Cache-Control
    header when it is set. *)
Record http_response := Respond {
  status : Z;
  s_maxage : option Z;
  resp_body : body
}.

Record query := Query {
  q_hub : JS.value;
  q_dir : JS.value;
  q_timestamp : JS.value;
  q_page : JS.value
}.

Inductive event :=
| EvCacheGet (key : string)
| EvCacheSet (key : string)
| EvFetch (page : Z).

(** The module-level state, the number of clock readings taken so far and
    the cache and network operations performed so far. *)
Record state := State {
  st_cache : cache cached_data;
  st_last : Z;                (* lastFR24Request *)
  st_reads : nat;
  st_trace : list event
}.

Definition MAX_PAGES : Z := 20.

(** [fl.airline?.code?.iata !== 'UA'] is false *)
Definition isUA (fl : flight) : bool :=
  match airline_iata fl with
  | Some c => String.eqb c "UA"
  | None => false
  end.

(** [flightTime && flightTime >= dayEnd] *)
Definition pastDayEnd (flightTime : option Z) (dayEnd : JS.num) : bool :=
  match flightTime, dayEnd with
  | Some t, JS.Int e => negb (t =? 0) && (e <=? t)
  | _, _ => false
  end.

Definition flightTime (dir : string) (fl : flight) : option Z :=
  if String.eqb dir "departures" then sched_departure fl else sched_arrival fl.

(** The [for (const entry of sched.data)] loop: the flights kept so far
    and [pastDay]. *)
Fixpoint scanPage (dir : string) (dayEnd : JS.num)
    (entries : list (option flight)) (all : list flight)
  : list flight * bool :=
  match entries with
  | [] => (all, false)
  | None :: rest => scanPage dir dayEnd rest all
  | Some fl :: rest =>
      if negb (isUA fl) then scanPage dir dayEnd rest all
      else if pastDayEnd (flightTime dir fl) dayEnd then (all, true)
      else scanPage dir dayEnd rest (all ++ [fl])
  end.

(** A flight of the carrier whose relevant timestamp is present and at
    or after the end of the day *)
Definition crossesBoundary (dir : string) (dayEnd : JS.num) (fl : flight) : bool :=
  isUA fl && pastDayEnd (flightTime dir fl) dayEnd.

Definition entryCrosses (dir : string) (dayEnd : JS.num)
    (entry : option flight) : bool :=
  match entry with
  | Some fl => crossesBoundary dir dayEnd fl
  | None => false
  end.

(** The flights of the carrier on a page *)
Definition uaFlights (entries : list (option flight)) : list flight :=
  flat_map (fun entry => match entry with
                         | Some fl => if isUA fl then [fl] else []
                         | None => []
                         end) entries.

(** The flights of the carrier that precede, on a page, the first one
    that crosses the boundary *)
Fixpoint uaBeforeBoundary (dir : string) (dayEnd : JS.num)
    (entries : list (option flight)) : list flight :=
  match entries with
  | [] => []
  | entry :: rest =>
      if entryCrosses dir dayEnd entry then []
      else (uaFlights [entry] ++ uaBeforeBoundary dir dayEnd rest)%list
  end.

(** The scan of a page as the specification words it: every record of
    the page is processed; the records of the carrier are kept, except
    those at or after the day boundary, which mark the page as having
    crossed it ("stop after finishing the current page"). *)
Definition scanPageAsSpecified (dir : string) (dayEnd : JS.num)
    (entries : list (option flight)) (all : list flight)
  : list flight * bool :=
  ((all ++ filter (fun fl => crossesBoundary dir dayEnd fl = false)
             (uaFlights entries))%list,
   existsb (entryCrosses dir dayEnd) entries).

(** [x || 1] *)
Definition orOne (x : option Z) : Z :=
  match x with
  | Some n => if n =? 0 then 1 else n
  | None => 1
  end.

Definition numOrOne (x : JS.num) : Z :=
  match x with
  | JS.Int n => if n =? 0 then 1 else n
  | JS.NaN => 1
  end.

(** [['departures', 'arrivals'].includes(dir)] *)
Definition isDir (dir : JS.value) : bool :=
  match dir with
  | JS.VStr s => String.eqb s "departures" || String.eqb s "arrivals"
  | _ => false
  end.

(** [(now - ts) > 86400] *)
Definition isOld (now : Z) (ts : JS.num) : bool :=
  match ts with
  | JS.Int t => now - t >? 86400
  | JS.NaN => false
  end.

Definition addNum (x : JS.num) (k : Z) : JS.num :=
  match x with
  | JS.Int t => JS.Int (t + k)
  | JS.NaN => JS.NaN
  end.

Section Handler.
(** The [k]-th reading of [Date.now()] during the call, and the outcome
    of the fetch of each page. *)
Variable now_ms : nat -> Z.
Variable upstream : Z -> response.

(** State and exceptions *)
Definition M (A : Type) : Type := state -> JS.result A * state.

Definition ret {A} (a : A) : M A := fun s => (JS.Ok a, s).

Definition throw {A} (e : JS.exn) : M A := fun s => (JS.Throw e, s).

Definition bind {A B} (m : M A) (k : A -> M B) : M B :=
  fun s =>
    match m s with
    | (JS.Ok a, s') => k a s'
    | (JS.Throw e, s') => (JS.Throw e, s')
    end.

Notation "'let*' x ':=' m 'in' k" := (bind m (fun x => k))
  (at level 10, x name, m at level 100, k at level 200).

Definition emit (s : state) (reads : nat) (ev : event) c last : state :=
  State c last (st_reads s + reads)%nat (st_trace s ++ [ev]).

(** [cacheGet(key)]: the clock is read only when the key is known. *)
Definition cacheGetM (key : string) : M (option (entry cached_data)) :=
  fun s =>
    let '(r, c) := cacheGet (now_ms (st_reads s)) key (st_cache s) in
    let reads := match OMap.get key (st_cache s) with
                 | Some _ => 1%nat
                 | None => 0%nat
                 end in
    (JS.Ok r, emit s reads (EvCacheGet key) c (st_last s)).

Definition cacheSetM (key : string) (d : cached_data) (ttlMs : Z) : M unit :=
  fun s =>
    let c := cacheSet (now_ms (st_reads s)) (now_ms (S (st_reads s)))
               key d ttlMs (st_cache s) in
    (JS.Ok tt, emit s 2 (EvCacheSet key) c (st_last s)).

(** [rateLimitedFetch(url)] for the URL of page [page] *)
Definition rateLimitedFetchM (page : Z) : M (Z * option sched) :=
  fun s =>
    let '(_, last) :=
      rateLimitedFetch_acquire (st_last s) (now_ms (st_reads s))
        (now_ms (S (st_reads s))) in
    let s' := emit s 2 (EvFetch page) (st_cache s) last in
    match upstream page with
    | NetAbort => (JS.Throw JS.AbortError, s')
    | NetError msg => (JS.Throw (JS.Error msg), s')
    | Http st body => (JS.Ok (st, body), s')
    end.

(** The state after the fetch of a page: two more readings of the
    clock, the second one in [lastFR24Request], and the fetch in the
    trace. *)
Definition afterFetch (s : state) (page : Z) : state :=
  State (st_cache s) (now_ms (S (st_reads s))) (st_reads s + 2)
    (st_trace s ++ [EvFetch page]).

(** [fetchOnePage(hub, dir, timestamp, page)] *)
Definition fetchOnePage (page : Z) : M sched :=
  let* resp := rateLimitedFetchM page in
  let '(st, body) := resp in
  if negb ((200 <=? st) && (st <=? 299))
  then throw (JS.Error ("FR24 returned " ++ JS.showZ st))
  else match body with
       | None => throw (JS.Error "No schedule data in response")
       | Some sc => ret sc
       end.

(** The [while] loop of the aggregation mode; the result is the final
    [pageNum], [totalPages], [allUAFlights] and [totalFetched]. *)
Fixpoint aggLoop (fuel : nat) (dir : string) (dayEnd : JS.num)
    (pageNum totalPages : Z) (all : list flight) (fetched : Z)
  : M (Z * Z * list flight * Z) :=
  match fuel with
  | O => throw JS.OutOfFuel
  | S fuel' =>
      if (pageNum <=? totalPages) && (pageNum <=? MAX_PAGES) then
        let* sc := fetchOnePage pageNum in
        let totalPages := orOne (page_total sc) in
        match sched_data sc with
        | None | Some [] => ret (pageNum, totalPages, all, fetched)
        | Some entries =>
            let '(all', pastDay) := scanPage dir dayEnd entries all in
            let fetched' := fetched + Z.of_nat (length entries) in
            if pastDay then ret (pageNum, totalPages, all', fetched')
            else aggLoop fuel' dir dayEnd (pageNum + 1) totalPages all'
                   fetched'
        end
      else ret (pageNum, totalPages, all, fetched)
  end.

(** Lines 101 to 139: the loop from page 1 and the result object. *)
Definition aggregate (hub dir : string) (ts : JS.num) : M agg_result :=
  let dayEnd := addNum ts 86400 in
  let* out := aggLoop 21 dir dayEnd 1 1 [] 0 in
  let '(pageNum, totalPages, all, fetched) := out in
  ret (AggResult all (Z.of_nat (length all)) fetched
         (Z.min (Z.min pageNum totalPages) MAX_PAGES) totalPages hub dir).

(** The body of the [try] block, after the validation. *)
Definition serve (hub dir : string) (timestamp page : JS.value)
  : M http_response :=
  let ts := JS.parseInt (JS.toString timestamp) in
  fun s0 =>
  let now := now_ms (st_reads s0) / 1000 in
  let ttl := if isOld now ts then 300000 else 60000 in
  let ok d c := ret (Respond 200 (Some (ttl / 1000)) (BJson d c)) in
  (match page with
   | JS.VUndefined =>
       let aggKey := "agg:" ++ hub ++ ":" ++ dir ++ ":" ++ JS.showNum ts in
       let* cached := cacheGetM aggKey in
       match cached with
       | Some e => ok (data e) true
       | None =>
           let* result := aggregate hub dir ts in
           let* u := cacheSetM aggKey (DAgg result) ttl in
           ok (DAgg result) false
       end
   | _ =>
       let pageNum := numOrOne (JS.parseInt (JS.toString page)) in
       let cacheKey := "sched:" ++ hub ++ ":" ++ dir ++ ":" ++ JS.showNum ts
                         ++ ":" ++ JS.showZ pageNum in
       let* cached := cacheGetM cacheKey in
       match cached with
       | Some e => ok (data e) true
       | None =>
           let* sc := fetchOnePage pageNum in
           let* u := cacheSetM cacheKey (DPage sc) ttl in
           ok (DPage sc) false
       end
   end)
    (State (st_cache s0) (st_last s0) (S (st_reads s0)) (st_trace s0)).

(** [handler(req, res)]: the response sent and the state afterwards;
    [None] only if the loop of the model ran out of fuel. *)
Definition handler (q : query) (s : state) : option (http_response * state) :=
  let hub := q_hub q in
  let dir := match q_dir q with
             | JS.VUndefined => JS.VStr "departures"
             | d => d
             end in
  let timestamp := q_timestamp q in
  if negb (JS.truthy hub) || negb (JS.truthy timestamp) then
    Some (Respond 400 None (BError "Missing required params: hub, timestamp"), s)
  else if negb (isDir dir) then
    Some (Respond 400 None (BError "dir must be departures or arrivals"), s)
  else
    match serve (JS.toString hub) (JS.toString dir) timestamp (q_page q) s with
    | (JS.Ok r, s') => Some (r, s')
    | (JS.Throw JS.AbortError, s') =>
        Some (Respond 504 None (BError "FR24 timeout"), s')
    | (JS.Throw (JS.Error msg), s') => Some (Respond 500 None (BError msg), s')
    | (JS.Throw JS.OutOfFuel, _) => None
    | (JS.Throw _, s') => Some (Respond 500 None (BError ""), s')
    end.
End Handler.

(** *** What a call of the handler does, in terms of the request *)

(** The key under which the handler looks up and stores the answer to a
    request that passes the validation *)
Definition cacheKeyOf (q : query) : string :=
  let hub := JS.toString (q_hub q) in
  let dir := JS.toString match q_dir q with
                         | JS.VUndefined => JS.VStr "departures"
                         | d => d
                         end in
  let ts := JS.parseInt (JS.toString (q_timestamp q)) in
  match q_page q with
  | JS.VUndefined => "agg:" ++ hub ++ ":" ++ dir ++ ":" ++ JS.showNum ts
  | page =>
      "sched:" ++ hub ++ ":" ++ dir ++ ":" ++ JS.showNum ts ++ ":"
        ++ JS.showZ (numOrOne (JS.parseInt (JS.toString page)))
  end.

(** The request passes the validation of the first lines. *)
Definition validQuery (q : query) : bool :=
  JS.truthy (q_hub q) && JS.truthy (q_timestamp q)
  && isDir match q_dir q with
           | JS.VUndefined => JS.VStr "departures"
           | d => d
           end.

(** The page the handler fetches first: page 1 in aggregation mode, the
    page asked for otherwise *)
Definition firstPageOf (q : query) : Z :=
  match q_page q with
  | JS.VUndefined => 1
  | page => numOrOne (JS.parseInt (JS.toString page))
  end.

(** The time to live the handler chooses for a request that arrives in
    state [s]: 5 minutes for a day more than 24 h old, else 1 minute *)
Definition ttlOf (now_ms : nat -> Z) (q : query) (s : state) : Z :=
  if isOld (now_ms (st_reads s) / 1000)
       (JS.parseInt (JS.toString (q_timestamp q)))
  then 300000 else 60000.

(** The work of the handler on a cache miss, as the data it caches: the
    aggregation, or the fetch of the page asked for *)
Definition serveWork (now_ms : nat -> Z) (upstream : Z -> response)
    (q : query) : M cached_data :=
  match q_page q with
  | JS.VUndefined =>
      bind (aggregate now_ms upstream (JS.toString (q_hub q))
              (JS.toString match q_dir q with
                           | JS.VUndefined => JS.VStr "departures"
                           | d => d
                           end)
              (JS.parseInt (JS.toString (q_timestamp q))))
        (fun r => ret (DAgg r))
  | _ => bind (fetchOnePage now_ms upstream (firstPageOf q))
           (fun sc => ret (DPage sc))
  end.

(** The fetches of [k] consecutive pages from page [pageNum] on *)
Definition fetchesFrom (pageNum : Z) (k : nat) : list event :=
  map (fun i => EvFetch (pageNum + Z.of_nat i)) (seq 0 k).

(** A flight of the carrier that is not past the end of the day *)
Definition keptFlight (dir : string) (dayEnd : JS.num) (fl : flight) : Prop :=
  isUA fl = true /\ pastDayEnd (flightTime dir fl) dayEnd = false.

(** *** Sample data: the day of 2024-01-01 at ORD *)

Module Sample.
Definition dayStart : Z := 1704067200.

Definition ua100 : flight :=
  Flight "UA100" (Some "UA") (Some 1704070000) (Some 1704080000).
Definition ua200 : flight :=
  Flight "UA200" (Some "UA") (Some 1704100000) (Some 1704110000).
Definition ua300 : flight :=
  Flight "UA300" (Some "UA") (Some 1704120000) (Some 1704130000).
(** Flights of the next day, of the carrier and of another one *)
Definition ua900 : flight :=
  Flight "UA900" (Some "UA") (Some 1704160000) (Some 1704170000).
Definition dl50 : flight :=
  Flight "DL50" (Some "DL") (Some 1704160000) (Some 1704170000).

Definition page (entries : list (option flight)) : response :=
  Http 200 (Some (Sched (Some 3) (Some entries))).

(** Three pages; page 2 starts with a flight of the carrier that is
    past the day, followed by one that is not. *)
Definition upstreamBoundary (p : Z) : response :=
  if p =? 1 then page [Some ua100]
  else if p =? 2 then page [Some ua900; Some ua200]
  else page [Some ua300].

(** Three pages; the flight past the day on page 2 is of another
    carrier. *)
Definition upstreamOtherCarrier (p : Z) : response :=
  if p =? 1 then page [Some ua100]
  else if p =? 2 then page [Some dl50; Some ua200]
  else page [Some ua300].

Definition clock (k : nat) : Z := 1704070000000.

(** An upstream that answers every page with the given response *)
Definition upstreamAlways (r : response) (p : Z) : response := r.

(** Writes of the [n] distinct keys k0, k1, ... *)
Definition writes (n : nat) : list (write Z) :=
  map (fun i => Write ("k" ++ JS.showZ (Z.of_nat i)) (Z.of_nat i) 60000 0 0)
    (seq 0 n).

Definition start : state := State OMap.empty 0 0 [].

Definition request (timestamp : string) : query :=
  Query (JS.VStr "ORD") JS.VUndefined (JS.VStr timestamp) JS.VUndefined.

(** What is observed of a call of the handler: the status, the body
    and the cache and network operations. *)
Definition observe (r : option (http_response * state))
  : option (Z * body * list event) :=
  match r with
  | Some (resp, s) => Some (status resp, resp_body resp, st_trace s)
  | None => None
  end.
End Sample.

End Schedule.

(** ** The flight-times endpoint, [src/api/flight-times.js]: cache *)

Module FlightTimes.

Definition CACHE_TTL_MS : Z := 120000.

Section Cache.
Context {D : Type}.

(** [{ data, ts }] *)
Record entry := Entry { data : D; ts : Z }.

Definition cache := OMap.t entry.

(** [getCached(key)]: returns [entry.data], or [None] for [null]. *)
Definition getCached (now : Z) (key : string) (c : cache)
  : option D * cache :=
  match OMap.get key c with
  | None => (None, c)
  | Some e =>
      if now - ts e >? CACHE_TTL_MS then (None, OMap.delete key c)
      else (Some (data e), c)
  end.

(** [setCache(key, data)] *)
Definition setCache (now : Z) (key : string) (d : D) (c : cache) : cache :=
  let c1 := if OMap.size c >? 200 then OMap.delete_first c else c in
  OMap.set key (Entry d now) c1.

(** Successive calls of [setCache], each with its key, its data and
    its clock reading *)
Definition setCaches (ws : list (string * D * Z)) (c : cache) : cache :=
  fold_left (fun c w => setCache (snd w) (fst (fst w)) (snd (fst w)) c) ws c.
End Cache.
Arguments entry : clear implicits.
Arguments cache : clear implicits.

(** The cache keys of the flights UAL0, UAL1, ... *)
Definition flightKeys (n : nat) : list string :=
  map (fun i => "fa:UAL" ++ JS.showZ (Z.of_nat i)) (seq 0 n).

(** *** The per-client sliding-window limiter *)

Record headers := Headers {
  x_forwarded_for : JS.value;
  x_real_ip : option string
}.

(** [raw.split(',')[0]?.trim() || req.headers?.['x-real-ip'] || 'unknown'] *)
Definition clientOf (raw : string) (real_ip : option string) : string :=
  let first := JS.trim (JS.beforeComma raw) in
  if negb (String.eqb first "") then first
  else match real_ip with
       | Some r => if negb (String.eqb r "") then r else "unknown"
       | None => "unknown"
       end.

(** [getClientIp(req)]; an array header whose first element is not a
    string has no [split] to call. *)
Definition getClientIp (h : headers) : JS.result string :=
  match x_forwarded_for h with
  | JS.VArr (JS.VStr s :: _) => JS.Ok (clientOf s (x_real_ip h))
  | JS.VArr _ => JS.Throw JS.TypeError
  | JS.VStr s => JS.Ok (clientOf s (x_real_ip h))
  | _ => JS.Ok (clientOf "" (x_real_ip h))
  end.

(** [while (ipLog.length && ipLog[0] < now - 60_000) ipLog.shift()] *)
Fixpoint prune (now : Z) (ipLog : list Z) : list Z :=
  match ipLog with
  | [] => []
  | t :: rest => if t <? now - 60000 then prune now rest else ipLog
  end.

(** The log of a client, empty when the map has none. *)
Definition ipLogOf (m : gmap string (list Z)) (ip : string) : list Z :=
  default [] (m !! ip).

(** The body of [isRateLimited] once the client is known: the answer and
    [rateLimitByIp] afterwards.  The array of the client is mutated in
    place, which is an update of the map at that client. *)
Definition isRateLimitedFor (now : Z) (ip : string) (m : gmap string (list Z))
  : bool * gmap string (list Z) :=
  let ipLog := prune now (ipLogOf m ip) in
  if (5 <=? length ipLog)%nat then (true, <[ip := ipLog]> m)
  else (false, <[ip := (ipLog ++ [now])%list]> m).

(** [isRateLimited(req)] *)
Definition isRateLimited (now : Z) (h : headers) (m : gmap string (list Z))
  : JS.result (bool * gmap string (list Z)) :=
  match getClientIp h with
  | JS.Ok ip => JS.Ok (isRateLimitedFor now ip m)
  | JS.Throw e => JS.Throw e
  end.


(** *** Normalisation of the flight designator *)

(** The two [if] statements of [normalizeFlightNumber] *)
Definition addCarrier (q : string) : string :=
  let q := if JS.startsWith "UA" q && negb (JS.startsWith "UAL" q)
           then "UAL" ++ JS.slice 2 q else q in
  if JS.isDigits1to4 q then "UAL" ++ q else q.

(** The body of [normalizeFlightNumber] on the string [raw || ''] *)
Definition normalizeString (s : string) : string :=
  addCarrier (JS.removeSpaces (JS.toUpperCase (JS.trim s))).

(** [normalizeFlightNumber(raw)]: a falsy [raw] is replaced by [''], a
    string is normalized, and any other value has no [trim] method, so
    that the call raises a [TypeError]. *)
Definition normalizeFlightNumber (raw : JS.value) : JS.result string :=
  match raw with
  | JS.VStr s => JS.Ok (normalizeString s)
  | _ => if JS.truthy raw then JS.Throw JS.TypeError
         else JS.Ok (normalizeString "")
  end.

(** [arr[0]] *)
Definition first (arr : list JS.value) : JS.value :=
  match arr with
  | [] => JS.VUndefined
  | v :: _ => v
  end.

(** *** Epoch conversion *)

(** The values of an epoch field of the parsed data: absent, [null] or a
    number of seconds. *)
Inductive epoch :=
| EUndefined
| ENull
| ENumber (n : Z).

(** [epochToISO(epoch)] *)
Definition epochToISO (e : epoch) : JS.result string :=
  match e with
  | EUndefined | ENull => JS.Ok EmptyString
  | ENumber n =>
      if n =? 0 then JS.Ok EmptyString else JSDate.toISOString (n * 1000)
  end.

(** *** Selection of the tracked flight *)











(** *** CORS *)

(** [/^http:\/\/localhost(:\d+)?$/.test(origin)] *)
Definition isLocalhost (origin : string) : bool :=
  match JS.stripPrefix "http://localhost" origin with
  | Some EmptyString => true
  | Some (String c port) =>
      Ascii.eqb c ":" && negb (String.eqb port "") && JS.allDigits port
  | None => false
  end.

(** [allowed] of [corsHeaders] *)
Definition allowedOrigin (origin : string) : bool :=
  String.eqb origin "https://theblueboard.co" || isLocalhost origin.

(** The [Access-Control-Allow-Origin] of [corsHeaders(req)]; the origin
    is [req.headers?.origin || '']. *)
Definition allowOrigin (originHeader : option string) : string :=
  let origin := default "" originHeader in
  if allowedOrigin origin then origin else "https://theblueboard.co".

(** *** The flight-times handler up to the upstream fetch *)

(** [/^UAL\d{1,4}[A-Z]?$/i.test(flight)] *)
Definition isValidFlight (flight : string) : bool :=
  match flight with
  | String u (String a (String l rest)) =>
      JS.eqbIgnoreCase u "U" && JS.eqbIgnoreCase a "A"
      && JS.eqbIgnoreCase l "L"
      && (1 <=? JS.countDigits rest)%nat && (JS.countDigits rest <=? 4)%nat
      && match JS.dropDigits rest with
         | EmptyString => true
         | String c EmptyString => JS.isLetter c
         | _ => false
         end
  | _ => false
  end.

(** [flight.replace('UAL', 'UA')], the flight number of the response *)
Definition displayFlight (flight : string) : string :=
  JS.replaceFirst "UAL" "UA" flight.

Record request := Request {
  method : string;
  origin : option string;        (* req.headers?.origin *)
  q_flight : JS.value;           (* req.query.flight *)
  req_headers : headers
}.

Section BeforeFetch.
Context {D : Type}.

(** The module-level state: [cache] and [rateLimitByIp] *)
Record state := State {
  st_cache : cache D;
  st_limits : gmap string (list Z)
}.

Inductive body :=
| NoBody
| ErrorBody (msg : string)
| CachedBody (d : D).          (* { ...cached, cached: true } *)

(** What the handler does before it fetches: it responds, with the
    allowed origin, a status and a body; it raises an exception, which
    nothing catches there; or it goes on to fetch the page of a flight. *)
Inductive outcome :=
| Responds (allow : string) (status : Z) (b : body)
| Raises (e : JS.exn)
| Fetches (allow : string) (flight : string).

(** Lines 59 to 82 of [handler(req, res)]; [now_cache] is the reading of
    the clock in [getCached], [now_limit] the one in [isRateLimited]. *)
Definition handlerBeforeFetch (now_cache now_limit : Z) (req : request)
    (s : state) : outcome * state :=
  let allow := allowOrigin (origin req) in
  if String.eqb (method req) "OPTIONS" then (Responds allow 204 NoBody, s)
  else if negb (String.eqb (method req) "GET") then
    (Responds allow 405 (ErrorBody "Method not allowed"), s)
  else if negb (JS.truthy (q_flight req)) then
    (Responds allow 400 (ErrorBody "Missing flight parameter"), s)
  else
    match normalizeFlightNumber (q_flight req) with
    | JS.Throw e => (Raises e, s)
    | JS.Ok flight =>
        if negb (isValidFlight flight) then
          (Responds allow 400 (ErrorBody "Invalid flight number"), s)
        else
          let '(cached, c) := getCached now_cache ("fa:" ++ flight) (st_cache s) in
          match cached with
          | Some d => (Responds allow 200 (CachedBody d), State c (st_limits s))
          | None =>
              match isRateLimited now_limit (req_headers req) (st_limits s) with
              | JS.Throw e => (Raises e, State c (st_limits s))
              | JS.Ok (true, m) =>
                  (Responds allow 429 (ErrorBody "Rate limited"), State c m)
              | JS.Ok (false, m) => (Fetches allow flight, State c m)
              end
          end
    end.
End BeforeFetch.
Arguments state : clear implicits.
Arguments body : clear implicits.
Arguments outcome : clear implicits.

End FlightTimes.

(** * Properties *)

(** ** Insertion-ordered maps *)

Section OMapFacts.
Context {V : Type}.
Implicit Types (m : OMap.t V) (k : string) (v : V).

Lemma omap_get_set_eq k v m : OMap.get k (OMap.set k v m) = Some v.
Proof.
  induction m as [|[k' v'] m IH]; simpl.
  - by rewrite String.eqb_refl.
  - destruct (String.eqb_spec k k') as [->|Hne]; simpl.
    + by rewrite String.eqb_refl.
    + by destruct (String.eqb_spec k k').
Qed.

Lemma omap_get_set_ne k k' v m :
  k <> k' -> OMap.get k' (OMap.set k v m) = OMap.get k' m.
Proof.
  intros Hne. induction m as [|[k0 v0] m IH]; simpl.
  - by destruct (String.eqb_spec k' k); [subst|].
  - destruct (String.eqb_spec k k0) as [->|Hk]; simpl.
    + destruct (String.eqb_spec k' k0); [by subst|done].
    + destruct (String.eqb_spec k' k0); [done|apply IH].
Qed.

Lemma omap_get_delete_eq k m : OMap.get k (OMap.delete k m) = None.
Proof.
  induction m as [|[k' v'] m IH]; simpl; [done|].
  destruct (String.eqb_spec k k') as [->|Hne]; simpl; [done|].
  by destruct (String.eqb_spec k k').
Qed.

Lemma omap_get_delete_ne k k' m :
  k <> k' -> OMap.get k' (OMap.delete k m) = OMap.get k' m.
Proof.
  intros Hne. induction m as [|[k0 v0] m IH]; simpl; [done|].
  destruct (String.eqb_spec k k0) as [->|Hk]; simpl.
  - destruct (String.eqb_spec k' k0); [by subst|done].
  - by rewrite IH.
Qed.

Lemma omap_get_in k m : OMap.get k m <> None <-> k ∈ OMap.keys m.
Proof.
  induction m as [|[k' v'] m IH]; simpl.
  - split; [done|]. by intros ?%elem_of_nil.
  - rewrite elem_of_cons. simpl.
    destruct (String.eqb_spec k k') as [->|Hne].
    + split; [by left|done].
    + rewrite IH. split; [by right|]. intros [->|H]; done.
Qed.

Lemma omap_delete_notin k m : k ∉ OMap.keys m -> OMap.delete k m = m.
Proof.
  induction m as [|[k' v'] m IH]; simpl; [done|].
  rewrite not_elem_of_cons. simpl. intros [Hne Hn].
  destruct (String.eqb_spec k k') as [->|_]; [done|]. by rewrite IH.
Qed.

Lemma omap_length_delete_le k m :
  (length (OMap.delete k m) <= length m)%nat.
Proof.
  induction m as [|[k' v'] m IH]; simpl; [done|].
  destruct (String.eqb k k'); simpl; lia.
Qed.

Lemma omap_length_delete_lt k m :
  k ∈ OMap.keys m -> (length (OMap.delete k m) < length m)%nat.
Proof.
  induction m as [|[k' v'] m IH]; simpl; [by intros ?%elem_of_nil|].
  rewrite elem_of_cons. simpl.
  destruct (String.eqb_spec k k') as [->|Hne]; simpl.
  - intros _. pose proof (omap_length_delete_le k' m). lia.
  - intros [->|H]; [done|]. specialize (IH H). lia.
Qed.

Lemma omap_length_set_le k v m :
  (length (OMap.set k v m) <= S (length m))%nat.
Proof.
  induction m as [|[k' v'] m IH]; simpl; [done|].
  destruct (String.eqb k k'); simpl; lia.
Qed.

Lemma omap_size_delete_first m :
  0 < OMap.size m -> OMap.size (OMap.delete_first m) <= OMap.size m - 1.
Proof.
  unfold OMap.size, OMap.delete_first.
  destruct m as [|[k v] m]; simpl; [lia|]. intros _.
  rewrite String.eqb_refl.
  pose proof (omap_length_delete_le k m). lia.
Qed.

Lemma omap_keys_set_fresh k v m :
  k ∉ OMap.keys m -> OMap.keys (OMap.set k v m) = (OMap.keys m ++ [k])%list.
Proof.
  induction m as [|[k' v'] m IH]; simpl; [done|].
  rewrite not_elem_of_cons. simpl. intros [Hne Hn].
  destruct (String.eqb_spec k k') as [->|_]; [done|]. simpl. by rewrite IH.
Qed.

Lemma omap_keys_delete_first m :
  NoDup (OMap.keys m) ->
  OMap.keys (OMap.delete_first m) = drop 1 (OMap.keys m).
Proof.
  unfold OMap.delete_first. destruct m as [|[k v] m]; simpl; [done|].
  intros [Hn _]%NoDup_cons. rewrite String.eqb_refl.
  by rewrite omap_delete_notin.
Qed.
End OMapFacts.

(** ** The two caches: reads *)

Section CacheReads.
Context {D : Type}.

Lemma schedule_cacheGet_unknown now key (c : Schedule.cache D) :
  OMap.get key c = None -> Schedule.cacheGet now key c = (None, c).
Proof. intros H. unfold Schedule.cacheGet. by rewrite H. Qed.

Lemma schedule_cacheGet_expired now key e (c : Schedule.cache D) :
  OMap.get key c = Some e -> Schedule.expires e < now ->
  Schedule.cacheGet now key c = (None, OMap.delete key c).
Proof.
  intros H Hlt. unfold Schedule.cacheGet. rewrite H.
  destruct (Z.gtb_spec now (Schedule.expires e)); [done|lia].
Qed.

Lemma schedule_cacheGet_live now key e (c : Schedule.cache D) :
  OMap.get key c = Some e -> now <= Schedule.expires e ->
  Schedule.cacheGet now key c = (Some e, c).
Proof.
  intros H Hle. unfold Schedule.cacheGet. rewrite H.
  destruct (Z.gtb_spec now (Schedule.expires e)); [lia|done].
Qed.

Lemma flight_getCached_unknown now key (c : FlightTimes.cache D) :
  OMap.get key c = None -> FlightTimes.getCached now key c = (None, c).
Proof. intros H. unfold FlightTimes.getCached. by rewrite H. Qed.

Lemma flight_getCached_expired now key e (c : FlightTimes.cache D) :
  OMap.get key c = Some e ->
  FlightTimes.ts e + FlightTimes.CACHE_TTL_MS < now ->
  FlightTimes.getCached now key c = (None, OMap.delete key c).
Proof.
  intros H Hlt. unfold FlightTimes.getCached. rewrite H.
  destruct (Z.gtb_spec (now - FlightTimes.ts e) FlightTimes.CACHE_TTL_MS);
    [done|lia].
Qed.

Lemma flight_getCached_live now key e (c : FlightTimes.cache D) :
  OMap.get key c = Some e ->
  now <= FlightTimes.ts e + FlightTimes.CACHE_TTL_MS ->
  FlightTimes.getCached now key c = (Some (FlightTimes.data e), c).
Proof.
  intros H Hle. unfold FlightTimes.getCached. rewrite H.
  destruct (Z.gtb_spec (now - FlightTimes.ts e) FlightTimes.CACHE_TTL_MS);
    [lia|done].
Qed.

(** What a write stores under its key. *)
Lemma schedule_cacheSet_get now_e now_t key d ttl (c : Schedule.cache D) :
  OMap.get key (Schedule.cacheSet now_e now_t key d ttl c)
  = Some (Schedule.Entry d (now_e + ttl) now_t).
Proof. unfold Schedule.cacheSet. apply omap_get_set_eq. Qed.

Lemma flight_setCache_get now key d (c : FlightTimes.cache D) :
  OMap.get key (FlightTimes.setCache now key d c)
  = Some (FlightTimes.Entry d now).
Proof. unfold FlightTimes.setCache. apply omap_get_set_eq. Qed.
End CacheReads.

(** C5.  In both caches a read of an unknown key is absent and changes
    nothing; a read after the expiry of the entry ([now > expires] in the
    schedule cache, [now - ts > CACHE_TTL_MS] in the flight-times cache)
    is absent and deletes the entry, so that a read of the same key at
    any later reading [now'] is absent as well; a read of an unexpired
    entry returns what was stored (the entry holding the data in the
    schedule cache, the data in the flight-times cache) and leaves the
    cache as it was. *)
Theorem cache_get_lazy_expiry_C5 {D : Type} (now now' : Z) (key : string)
    (sc : Schedule.cache D) (fc : FlightTimes.cache D) :
  (OMap.get key sc = None -> Schedule.cacheGet now key sc = (None, sc))
  /\ (forall e, OMap.get key sc = Some e -> Schedule.expires e < now ->
        Schedule.cacheGet now key sc = (None, OMap.delete key sc)
        /\ OMap.get key (OMap.delete key sc) = None
        /\ Schedule.cacheGet now' key (OMap.delete key sc)
           = (None, OMap.delete key sc))
  /\ (forall e, OMap.get key sc = Some e -> now <= Schedule.expires e ->
        Schedule.cacheGet now key sc = (Some e, sc))
  /\ (OMap.get key fc = None -> FlightTimes.getCached now key fc = (None, fc))
  /\ (forall e, OMap.get key fc = Some e ->
        FlightTimes.ts e + FlightTimes.CACHE_TTL_MS < now ->
        FlightTimes.getCached now key fc = (None, OMap.delete key fc)
        /\ OMap.get key (OMap.delete key fc) = None
        /\ FlightTimes.getCached now' key (OMap.delete key fc)
           = (None, OMap.delete key fc))
  /\ (forall e, OMap.get key fc = Some e ->
        now <= FlightTimes.ts e + FlightTimes.CACHE_TTL_MS ->
        FlightTimes.getCached now key fc = (Some (FlightTimes.data e), fc)).
Proof.
  repeat split.
  - apply schedule_cacheGet_unknown.
  - by eapply schedule_cacheGet_expired.
  - apply omap_get_delete_eq.
  - apply schedule_cacheGet_unknown, omap_get_delete_eq.
  - intros e. apply schedule_cacheGet_live.
  - apply flight_getCached_unknown.
  - by eapply flight_getCached_expired.
  - apply omap_get_delete_eq.
  - apply flight_getCached_unknown, omap_get_delete_eq.
  - intros e. apply flight_getCached_live.
Qed.

Lemma cache_get_lazy_expiry_C5_witness :
  let sc := [("k", Schedule.Entry 7 100 0)] in
  let fc := [("k", FlightTimes.Entry 7 0)] in
  Schedule.cacheGet 101 "k" sc = (None, OMap.delete "k" sc)
  /\ Schedule.cacheGet 100 "k" sc = (Some (Schedule.Entry 7 100 0), sc)
  /\ Schedule.cacheGet 100 "other" sc = (None, sc)
  /\ FlightTimes.getCached 120001 "k" fc = (None, OMap.delete "k" fc)
  /\ FlightTimes.getCached 120000 "k" fc = (Some 7, fc)
  /\ FlightTimes.getCached 120000 "other" fc = (None, fc).
Proof.
  intros sc fc.
  destruct (cache_get_lazy_expiry_C5 101 0 "k" sc fc)
    as (_ & Hs & _ & _ & _ & _).
  destruct (cache_get_lazy_expiry_C5 100 0 "k" sc fc)
    as (_ & _ & Hl & _ & _ & _).
  destruct (cache_get_lazy_expiry_C5 100 0 "other" sc fc)
    as (Hu & _ & _ & _ & _ & _).
  destruct (cache_get_lazy_expiry_C5 120001 0 "k" sc fc)
    as (_ & _ & _ & _ & Hfs & _).
  destruct (cache_get_lazy_expiry_C5 120000 0 "k" sc fc)
    as (_ & _ & _ & _ & _ & Hfl).
  destruct (cache_get_lazy_expiry_C5 120000 0 "other" sc fc)
    as (_ & _ & _ & Hfu & _ & _).
  repeat apply conj.
  - apply (Hs (Schedule.Entry 7 100 0)); [reflexivity|simpl; lia].
  - apply (Hl (Schedule.Entry 7 100 0)); [reflexivity|simpl; lia].
  - apply Hu. reflexivity.
  - apply (Hfs (FlightTimes.Entry 7 0)); [reflexivity|vm_compute; reflexivity].
  - apply (Hfl (FlightTimes.Entry 7 0)); [reflexivity|vm_compute; discriminate].
  - apply Hfu. reflexivity.
Defined.

(** ** The two caches: writes and eviction *)

Section ScheduleCacheBound.
Context {D : Type}.
Implicit Types (c : Schedule.cache D) (w : Schedule.write D).

Lemma schedule_cacheSet_size now_e now_t key d ttl c :
  OMap.size c <= Schedule.MAX_CACHE_SIZE ->
  OMap.size (Schedule.cacheSet now_e now_t key d ttl c)
  <= Schedule.MAX_CACHE_SIZE.
Proof.
  intros Hle. unfold Schedule.cacheSet.
  destruct (Z.geb_spec (OMap.size c) Schedule.MAX_CACHE_SIZE) as [Hge|Hlt].
  - assert (Hpos : 0 < OMap.size c) by (unfold Schedule.MAX_CACHE_SIZE in *; lia).
    pose proof (omap_size_delete_first c Hpos) as Hd.
    pose proof (omap_length_set_le key
      (Schedule.Entry d (now_e + ttl) now_t) (OMap.delete_first c)).
    unfold OMap.size in *. lia.
  - pose proof (omap_length_set_le key
      (Schedule.Entry d (now_e + ttl) now_t) c).
    unfold OMap.size in *. lia.
Qed.

Lemma schedule_cacheSets_snoc ws w c :
  Schedule.cacheSets (ws ++ [w]) c
  = Schedule.cacheSet (Schedule.w_now_e w) (Schedule.w_now_t w)
      (Schedule.w_key w) (Schedule.w_data w) (Schedule.w_ttl w)
      (Schedule.cacheSets ws c).
Proof. unfold Schedule.cacheSets. by rewrite fold_left_app. Qed.

(** X7.  The schedule cache never holds more than [MAX_CACHE_SIZE] entries,
    whatever is written, and reads only remove entries. *)
Theorem schedule_cache_bounded ws c :
  OMap.size c <= Schedule.MAX_CACHE_SIZE ->
  OMap.size (Schedule.cacheSets ws c) <= Schedule.MAX_CACHE_SIZE.
Proof.
  induction ws as [|w ws IH] using rev_ind; [done|].
  intros Hle. rewrite schedule_cacheSets_snoc.
  by apply schedule_cacheSet_size, IH.
Qed.

Lemma schedule_cacheGet_size now key c :
  OMap.size (snd (Schedule.cacheGet now key c)) <= OMap.size c.
Proof.
  unfold Schedule.cacheGet. destruct (OMap.get key c); [|simpl; lia].
  destruct (now >? _); simpl; [|lia].
  pose proof (omap_length_delete_le key c). unfold OMap.size. lia.
Qed.

(** The keys after writes of distinct keys into the empty cache are,
    in order, the last [MAX_CACHE_SIZE] keys written; each is stored
    with the entry of its write. *)
Lemma schedule_cacheSets_keys ws :
  NoDup (map Schedule.w_key ws) ->
  let c := Schedule.cacheSets ws OMap.empty in
  OMap.keys c = drop (length ws - 200) (map Schedule.w_key ws)
  /\ forall w, w ∈ ws -> Schedule.w_key w ∈ OMap.keys c ->
       OMap.get (Schedule.w_key w) c = Some (Schedule.entryOf w).
Proof.
  induction ws as [|w ws IH] using rev_ind.
  { split; [done|]. by intros w ?%elem_of_nil. }
  rewrite map_app. simpl map.
  intros (Hnd & Hfresh & _)%NoDup_app.
  destruct (IH Hnd) as [Hkeys Hget]. clear IH.
  cbv zeta. rewrite schedule_cacheSets_snoc.
  set (c := Schedule.cacheSets ws OMap.empty) in *.
  set (ks := map Schedule.w_key ws) in *.
  assert (Hlen : length ks = length ws) by apply length_map.
  assert (Hsz : OMap.size c = Z.of_nat (length ws `min` 200)).
  { unfold OMap.size. f_equal.
    rewrite <- (length_map fst c). change (map fst c) with (OMap.keys c).
    rewrite Hkeys, length_drop. lia. }
  assert (Hnk : Schedule.w_key w ∉ ks).
  { intros Hin. apply (Hfresh _ Hin). by left. }
  unfold Schedule.cacheSet.
  set (c1 := if OMap.size c >=? Schedule.MAX_CACHE_SIZE
             then OMap.delete_first c else c).
  assert (Hk1 : OMap.keys c1 = drop (length ws + 1 - 200) ks
                /\ forall k, k ∈ OMap.keys c1 -> OMap.get k c1 = OMap.get k c).
  { unfold c1.
    destruct (Z.geb_spec (OMap.size c) Schedule.MAX_CACHE_SIZE) as [Hge|Hlt];
      unfold Schedule.MAX_CACHE_SIZE in *.
    - assert (Hndc : NoDup (OMap.keys c)).
      { rewrite Hkeys. eapply sublist_NoDup; [done|apply sublist_drop]. }
      split.
      + rewrite omap_keys_delete_first by done. rewrite Hkeys, drop_drop.
        f_equal. lia.
      + intros k Hin. unfold OMap.delete_first in *.
        destruct (OMap.keys c) as [|k0 rest] eqn:Hk; [done|].
        destruct (String.eqb_spec k0 k) as [->|Hne].
        * exfalso. apply omap_get_in in Hin. apply Hin, omap_get_delete_eq.
        * by apply omap_get_delete_ne.
    - split; [|done]. rewrite Hkeys. f_equal. lia. }
  destruct Hk1 as [Hk1 Hg1].
  assert (Hn1 : Schedule.w_key w ∉ OMap.keys c1).
  { rewrite Hk1. intros Hin. apply Hnk.
    eapply elem_of_sublist; [exact Hin|apply sublist_drop]. }
  split.
  - rewrite omap_keys_set_fresh by done. rewrite Hk1, length_app. simpl length.
    rewrite drop_app_le by lia. done.
  - intros w' [Hin| ->%list_elem_of_singleton]%elem_of_app Hkin.
    + assert (Hne : Schedule.w_key w <> Schedule.w_key w').
      { intros Heq. apply Hnk. rewrite Heq. by apply list_elem_of_fmap_2. }
      rewrite omap_get_set_ne by done.
      rewrite omap_keys_set_fresh in Hkin by done.
      apply elem_of_app in Hkin as [Hkin|Heq%list_elem_of_singleton];
        [|congruence].
      rewrite Hg1 by done. apply Hget; [done|].
      rewrite Hkeys. rewrite Hk1 in Hkin.
      eapply elem_of_sublist; [exact Hkin|].
      replace (length ws + 1 - 200)%nat
        with ((length ws - 200) + (length ws + 1 - 200 - (length ws - 200)))%nat
        by lia.
      rewrite <- drop_drop. apply sublist_drop.
    + apply omap_get_set_eq.
Qed.
End ScheduleCacheBound.

(** X8.  In the schedule cache, after [MAX_CACHE_SIZE + 1] writes of distinct
    keys into the empty cache the first key is absent at every reading of
    the clock, the other [MAX_CACHE_SIZE] keys are read back with what was
    written as long as they have not expired, and the cache holds
    [MAX_CACHE_SIZE] entries. *)
Theorem schedule_cache_evicts_oldest {D : Type} (w0 : Schedule.write D)
    (ws : list (Schedule.write D)) :
  Z.of_nat (length ws) = Schedule.MAX_CACHE_SIZE ->
  NoDup (map Schedule.w_key (w0 :: ws)) ->
  let c := Schedule.cacheSets (w0 :: ws) OMap.empty in
  OMap.size c = Schedule.MAX_CACHE_SIZE
  /\ (forall now, Schedule.cacheGet now (Schedule.w_key w0) c = (None, c))
  /\ (forall w now, w ∈ ws -> now <= Schedule.w_now_e w + Schedule.w_ttl w ->
        Schedule.cacheGet now (Schedule.w_key w) c
        = (Some (Schedule.entryOf w), c)).
Proof.
  unfold Schedule.MAX_CACHE_SIZE. intros Hlen Hnd.
  destruct (schedule_cacheSets_keys (w0 :: ws) Hnd) as [Hkeys Hget].
  cbv zeta in *. set (c := Schedule.cacheSets (w0 :: ws) OMap.empty) in *.
  simpl length in Hkeys.
  replace (S (length ws) - 200)%nat with 1%nat in Hkeys by lia.
  change (OMap.keys c = map Schedule.w_key ws) in Hkeys.
  change (NoDup (Schedule.w_key w0 :: map Schedule.w_key ws)) in Hnd.
  apply NoDup_cons in Hnd as [Hn0 _].
  repeat split.
  - unfold OMap.size. rewrite <- (length_map fst c).
    change (map fst c) with (OMap.keys c). rewrite Hkeys, length_map. lia.
  - intros now. apply schedule_cacheGet_unknown.
    destruct (OMap.get (Schedule.w_key w0) c) eqn:Hg; [|done].
    exfalso. apply Hn0. rewrite <- Hkeys. apply omap_get_in. by rewrite Hg.
  - intros w now Hin Hlive. apply schedule_cacheGet_live; [|done].
    apply Hget; [by right|]. rewrite Hkeys. by apply list_elem_of_fmap_2.
Qed.

(** The flight-times cache evicts only above 200 entries, so it holds at
    most 201. *)
Lemma flight_setCache_size {D : Type} now key (d : D) (c : FlightTimes.cache D) :
  OMap.size c <= 201 -> OMap.size (FlightTimes.setCache now key d c) <= 201.
Proof.
  intros Hle. unfold FlightTimes.setCache.
  destruct (Z.gtb_spec (OMap.size c) 200) as [Hgt|Hle'].
  - assert (Hpos : 0 < OMap.size c) by lia.
    pose proof (omap_size_delete_first c Hpos).
    pose proof (omap_length_set_le key (FlightTimes.Entry d now)
                  (OMap.delete_first c)).
    unfold OMap.size in *. lia.
  - pose proof (omap_length_set_le key (FlightTimes.Entry d now) c).
    unfold OMap.size in *. lia.
Qed.

(** C1, at the flight-times cache.  After [setCache] on the 201 distinct
    keys fa:UAL0 ... fa:UAL200 from the empty cache, with no read and no
    expiry, the cache holds 201 entries, all the keys in the order of
    their insertion, and the first key is still read back: nothing was
    evicted, since [cache.size > 200] is false at 200 entries. *)
Theorem flight_cache_keeps_201_entries_C1 :
  let ws := map (fun k => (k, tt, 0)) (FlightTimes.flightKeys 201) in
  let c := FlightTimes.setCaches ws OMap.empty in
  OMap.size c = 201
  /\ OMap.keys c = FlightTimes.flightKeys 201
  /\ FlightTimes.getCached 0 "fa:UAL0" c = (Some tt, c).
Proof. vm_compute. repeat split. Qed.

(** ** The global rate limiter *)

Lemma rateLimitWait_spec last now :
  0 <= Schedule.rateLimitWait last now
  /\ Schedule.MIN_REQUEST_INTERVAL - (now - last)
     <= Schedule.rateLimitWait last now.
Proof. unfold Schedule.rateLimitWait. lia. Qed.

Lemma dispatches_gaps clock last readings :
  last <= clock ->
  Schedule.sequential clock last readings ->
  Schedule.gapsAtLeast Schedule.MIN_REQUEST_INTERVAL
    (last :: Schedule.dispatches last readings).
Proof.
  revert clock last.
  induction readings as [|[now after] rest IH]; intros clock last Hle Hseq.
  - done.
  - simpl in Hseq. destruct Hseq as (Hclock & Hwait & Hrest).
    pose proof (rateLimitWait_spec last now) as [Hw0 Hw].
    change (Schedule.gapsAtLeast Schedule.MIN_REQUEST_INTERVAL
              (last :: after :: Schedule.dispatches after rest)).
    split; [lia|]. apply (IH after after); [lia|done].
Qed.

(** C7.  An acquire asks the timer for
    [max 0 (MIN_REQUEST_INTERVAL - (now - lastFR24Request))] with
    [MIN_REQUEST_INTERVAL = 2000], and then sets [lastFR24Request] to the
    reading taken just before the upstream call; when acquires are
    sequential, the clock does not go back and the timer does not fire
    early, any two consecutive dispatch times (the previous one included)
    are at least [MIN_REQUEST_INTERVAL] apart. *)
Theorem rate_limiter_min_gap_C7 (clock last : Z) (readings : list (Z * Z)) :
  last <= clock ->
  Schedule.sequential clock last readings ->
  Schedule.MIN_REQUEST_INTERVAL = 2000
  /\ (forall l now after,
        Schedule.rateLimitedFetch_acquire l now after
        = (Z.max 0 (2000 - (now - l)), after))
  /\ Schedule.gapsAtLeast 2000 (last :: Schedule.dispatches last readings).
Proof.
  intros Hle Hseq. split; [done|]. split; [done|].
  by apply (dispatches_gaps clock).
Qed.

Lemma rate_limiter_min_gap_C7_witness :
  Schedule.dispatches 0 [(10000, 10000); (10500, 12000); (12000, 14000)]
  = [10000; 12000; 14000]
  /\ Schedule.gapsAtLeast 2000
       (0 :: Schedule.dispatches 0
               [(10000, 10000); (10500, 12000); (12000, 14000)]).
Proof.
  split; [reflexivity|].
  apply (rate_limiter_min_gap_C7 0 0
           [(10000, 10000); (10500, 12000); (12000, 14000)]); [lia|].
  vm_compute. intuition discriminate.
Defined.

(** ** The per-client limiter *)

Lemma prune_length now l : (length (FlightTimes.prune now l) <= length l)%nat.
Proof.
  induction l as [|t l IH]; simpl; [done|].
  destruct (t <? now - 60000); simpl; lia.
Qed.



Lemma prune_suffix now l : exists k, l = (k ++ FlightTimes.prune now l)%list.
Proof.
  induction l as [|t l [k IH]]; [by exists []|].
  simpl. destruct (t <? now - 60000).
  - exists (t :: k). simpl. by rewrite <- IH.
  - by exists [].
Qed.



Lemma ipLogOf_insert ip l (m : gmap string (list Z)) :
  FlightTimes.ipLogOf (<[ip := l]> m) ip = l.
Proof. unfold FlightTimes.ipLogOf. by rewrite lookup_insert_eq. Qed.

Lemma ipLogOf_insert_ne ip ip' l (m : gmap string (list Z)) :
  ip <> ip' ->
  FlightTimes.ipLogOf (<[ip := l]> m) ip' = FlightTimes.ipLogOf m ip'.
Proof. intros H. unfold FlightTimes.ipLogOf. by rewrite lookup_insert_ne. Qed.



(** A check leaves the logs of the other clients as they are. *)
Lemma isRateLimitedFor_other now ip ip' (m : gmap string (list Z)) :
  ip <> ip' ->
  FlightTimes.ipLogOf (snd (FlightTimes.isRateLimitedFor now ip m)) ip'
  = FlightTimes.ipLogOf m ip'.
Proof.
  intros H. unfold FlightTimes.isRateLimitedFor.
  destruct (5 <=? _)%nat; simpl; by rewrite ipLogOf_insert_ne.
Qed.

(** With a clock that does not go back, the log of a client stays in
    the order of the clock and below the current reading. *)
Lemma isRateLimitedFor_sorted now ip (m : gmap string (list Z)) :
  StronglySorted Z.le (FlightTimes.ipLogOf m ip) ->
  Forall (fun t => t <= now) (FlightTimes.ipLogOf m ip) ->
  let log' := FlightTimes.ipLogOf (snd (FlightTimes.isRateLimitedFor now ip m)) ip in
  StronglySorted Z.le log' /\ Forall (fun t => t <= now) log'.
Proof.
  intros Hs Hall. cbv zeta.
  assert (Hp : StronglySorted Z.le (FlightTimes.prune now (FlightTimes.ipLogOf m ip))
               /\ Forall (fun t => t <= now)
                    (FlightTimes.prune now (FlightTimes.ipLogOf m ip))).
  { destruct (prune_suffix now (FlightTimes.ipLogOf m ip)) as [k Hk].
    rewrite Hk in Hs, Hall. split.
    - by apply StronglySorted_app_1_r in Hs.
    - by apply Forall_app in Hall as [_ ?]. }
  destruct Hp as [Hps Hpa].
  unfold FlightTimes.isRateLimitedFor.
  destruct (5 <=? _)%nat; simpl; rewrite ipLogOf_insert; [done|].
  split.
  - apply StronglySorted_app_2; [|done|repeat constructor].
    intros x y Hx ->%list_elem_of_singleton.
    by apply (proj1 (Forall_forall _ _) Hpa).
  - apply Forall_app. split; [done|]. repeat constructor. lia.
Qed.





(** ** Normalisation of the flight designator *)

Lemma upperChar_idem c : JS.upperChar (JS.upperChar c) = JS.upperChar c.
Proof. destruct c as [[] [] [] [] [] [] [] []]; reflexivity. Qed.

Lemma isSpace_upperChar c : JS.isSpace (JS.upperChar c) = JS.isSpace c.
Proof. destruct c as [[] [] [] [] [] [] [] []]; reflexivity. Qed.

Lemma toUpperCase_removeSpaces s :
  JS.toUpperCase (JS.removeSpaces s) = JS.removeSpaces (JS.toUpperCase s).
Proof.
  induction s as [|c s IH]; simpl; [done|].
  rewrite isSpace_upperChar. destruct (JS.isSpace c); simpl; by rewrite IH.
Qed.

Lemma toUpperCase_idem s : JS.toUpperCase (JS.toUpperCase s) = JS.toUpperCase s.
Proof.
  induction s as [|c s IH]; simpl; [done|]. by rewrite upperChar_idem, IH.
Qed.

Lemma noSpaces_removeSpaces s : JS.noSpaces (JS.removeSpaces s) = true.
Proof.
  induction s as [|c s IH]; simpl; [done|].
  destruct (JS.isSpace c) eqn:Hc; simpl; [done|]. by rewrite Hc, IH.
Qed.

Lemma removeSpaces_noSpaces s : JS.noSpaces s = true -> JS.removeSpaces s = s.
Proof.
  induction s as [|c s IH]; simpl; [done|].
  intros [Hc Hs]%andb_true_iff. apply negb_true_iff in Hc.
  by rewrite Hc, IH.
Qed.

Lemma trimStart_noSpaces s : JS.noSpaces s = true -> JS.trimStart s = s.
Proof.
  destruct s as [|c s]; simpl; [done|].
  intros [Hc _]%andb_true_iff. apply negb_true_iff in Hc. by rewrite Hc.
Qed.

Lemma trimEnd_noSpaces s : JS.noSpaces s = true -> JS.trimEnd s = s.
Proof.
  induction s as [|c s IH]; simpl; [done|].
  intros [Hc Hs]%andb_true_iff. apply negb_true_iff in Hc.
  rewrite IH by done. destruct s; [by rewrite Hc|done].
Qed.

Lemma trim_noSpaces s : JS.noSpaces s = true -> JS.trim s = s.
Proof.
  intros H. unfold JS.trim. rewrite trimStart_noSpaces by done.
  by apply trimEnd_noSpaces.
Qed.

Lemma clean_fixed s :
  JS.clean s -> JS.removeSpaces (JS.toUpperCase (JS.trim s)) = s.
Proof.
  intros [Hn Hu]. rewrite trim_noSpaces by done. rewrite Hu.
  by apply removeSpaces_noSpaces.
Qed.

Lemma clean_cleaned s : JS.clean (JS.removeSpaces (JS.toUpperCase (JS.trim s))).
Proof.
  split; [apply noSpaces_removeSpaces|].
  by rewrite toUpperCase_removeSpaces, toUpperCase_idem.
Qed.

Lemma clean_slice n s : JS.clean s -> JS.clean (JS.slice n s).
Proof.
  revert s. induction n as [|n IH]; intros s Hs; [by destruct s|].
  destruct s as [|c s]; [done|]. simpl. apply IH.
  destruct Hs as [[_ Hn]%andb_true_iff Hu]. simpl in Hu.
  split; [done|]. by injection Hu.
Qed.

Lemma clean_UAL s : JS.clean s -> JS.clean ("UAL" ++ s).
Proof.
  intros [Hn Hu]. split; [exact Hn|].
  change (String "U" (String "A" (String "L" (JS.toUpperCase s))) = "UAL" ++ s).
  by rewrite Hu.
Qed.

Lemma addCarrier_UAL s : FlightTimes.addCarrier ("UAL" ++ s) = "UAL" ++ s.
Proof.
  change ("UAL" ++ s) with (String "U" (String "A" (String "L" s))).
  unfold FlightTimes.addCarrier, JS.isDigits1to4.
  cbn [JS.startsWith Ascii.eqb Bool.eqb andb negb JS.allDigits].
  change (JS.isDigit "U") with false. by rewrite andb_false_r.
Qed.

Lemma addCarrier_clean q : JS.clean q -> JS.clean (FlightTimes.addCarrier q).
Proof.
  intros Hq. unfold FlightTimes.addCarrier.
  destruct (JS.startsWith "UA" q && negb (JS.startsWith "UAL" q)).
  - destruct (JS.isDigits1to4 _); repeat apply clean_UAL; by apply clean_slice.
  - destruct (JS.isDigits1to4 q); [by apply clean_UAL|done].
Qed.




(** Empty and absent inputs normalize to the empty string. *)
Lemma normalizeFlightNumber_absent :
  FlightTimes.normalizeFlightNumber (JS.VStr "") = JS.Ok ""
  /\ FlightTimes.normalizeFlightNumber JS.VNull = JS.Ok ""
  /\ FlightTimes.normalizeFlightNumber JS.VUndefined = JS.Ok "".
Proof. repeat split. Qed.

(** On an array the call raises a [TypeError], whatever the array
    holds: an array is truthy and has no [trim] method. *)
Lemma normalizeFlightNumber_array (arr : list JS.value) :
  FlightTimes.normalizeFlightNumber (JS.VArr arr) = JS.Throw JS.TypeError.
Proof. reflexivity. Qed.

(** C3, at the array ['UA100', 'UA200']: the call raises a [TypeError],
    while the first element alone normalizes to UAL100; the empty string,
    [null] and [undefined] normalize to the empty string. *)
Theorem normalizeFlightNumber_array_throws_C3 :
  let arr := [JS.VStr "UA100"; JS.VStr "UA200"] in
  FlightTimes.normalizeFlightNumber (JS.VArr arr) = JS.Throw JS.TypeError
  /\ FlightTimes.normalizeFlightNumber (FlightTimes.first arr) = JS.Ok "UAL100"
  /\ FlightTimes.normalizeFlightNumber (JS.VArr arr)
     <> FlightTimes.normalizeFlightNumber (FlightTimes.first arr)
  /\ FlightTimes.normalizeFlightNumber (JS.VStr "") = JS.Ok ""
  /\ FlightTimes.normalizeFlightNumber JS.VNull = JS.Ok ""
  /\ FlightTimes.normalizeFlightNumber JS.VUndefined = JS.Ok "".
Proof. repeat split. discriminate. Qed.

Example normalizeFlightNumber_examples :
  FlightTimes.normalizeFlightNumber (JS.VStr "UA2221") = JS.Ok "UAL2221"
  /\ FlightTimes.normalizeFlightNumber (JS.VStr "2221") = JS.Ok "UAL2221"
  /\ FlightTimes.normalizeFlightNumber (JS.VStr "UAL100") = JS.Ok "UAL100"
  /\ FlightTimes.normalizeFlightNumber (JS.VStr "  ua 838 ") = JS.Ok "UAL838"
  /\ FlightTimes.normalizeFlightNumber (JS.VStr "1") = JS.Ok "UAL1"
  /\ FlightTimes.normalizeFlightNumber (JS.VStr "12345") = JS.Ok "12345".
Proof. repeat split. Qed.

(** ** Selection of the tracked flight *)







(** ** The schedule handler *)

Section ScheduleHandler.
Variable now_ms : nat -> Z.
Variable upstream : Z -> Schedule.response.

Lemma scanPage_spec dir dayEnd entries all :
  Schedule.scanPage dir dayEnd entries all
  = ((all ++ Schedule.uaBeforeBoundary dir dayEnd entries)%list,
     existsb (Schedule.entryCrosses dir dayEnd) entries).
Proof.
  revert all. induction entries as [|[fl|] rest IH]; intros all; simpl.
  - by rewrite app_nil_r.
  - unfold Schedule.crossesBoundary.
    destruct (Schedule.isUA fl); simpl; [|apply IH].
    destruct (Schedule.pastDayEnd _ _); simpl; [by rewrite app_nil_r|].
    rewrite IH. by rewrite <- app_assoc.
  - apply IH.
Qed.

Lemma uaBeforeBoundary_none dir dayEnd entries :
  existsb (Schedule.entryCrosses dir dayEnd) entries = false ->
  Schedule.uaBeforeBoundary dir dayEnd entries = Schedule.uaFlights entries.
Proof.
  induction entries as [|e rest IH]; simpl; [done|].
  intros [He Hr]%orb_false_iff. rewrite He, IH by done.
  by rewrite app_nil_r.
Qed.

Lemma fetchOnePage_ok page st sc s :
  upstream page = Schedule.Http st (Some sc) -> 200 <= st <= 299 ->
  Schedule.fetchOnePage now_ms upstream page s = (JS.Ok sc, Schedule.afterFetch now_ms s page).
Proof.
  intros Hup Hst. unfold Schedule.fetchOnePage, Schedule.bind,
    Schedule.rateLimitedFetchM. simpl. rewrite Hup.
  destruct (Z.leb_spec 200 st); [|lia].
  destruct (Z.leb_spec st 299); [|lia]. done.
Qed.

Lemma fetchOnePage_cases page s :
  (exists sc, Schedule.fetchOnePage now_ms upstream page s
              = (JS.Ok sc, Schedule.afterFetch now_ms s page))
  \/ (exists e, Schedule.fetchOnePage now_ms upstream page s
                = (JS.Throw e, Schedule.afterFetch now_ms s page) /\ e <> JS.OutOfFuel).
Proof.
  unfold Schedule.fetchOnePage, Schedule.bind, Schedule.rateLimitedFetchM.
  simpl. destruct (upstream page) as [|msg|st [sc|]].
  - right. by eexists.
  - right. by eexists.
  - destruct (negb _); [right|left]; by eexists.
  - destruct (negb _); right; by eexists.
Qed.

(** The loop never exhausts a fuel above the number of pages left. *)
Lemma aggLoop_fuel fuel dir dayEnd pageNum totalPages all n s :
  (Z.to_nat (Schedule.MAX_PAGES + 1 - pageNum) < fuel)%nat ->
  fst (Schedule.aggLoop now_ms upstream fuel dir dayEnd pageNum totalPages
         all n s) <> JS.Throw JS.OutOfFuel.
Proof.
  revert pageNum totalPages all n s.
  induction fuel as [|fuel IH]; intros pageNum totalPages all n s Hf; [lia|].
  simpl.
  destruct (Z.leb_spec pageNum totalPages); simpl; [|done].
  destruct (Z.leb_spec pageNum Schedule.MAX_PAGES); simpl; [|done].
  unfold Schedule.bind.
  destruct (fetchOnePage_cases pageNum s) as [[sc ->]|[e [-> He]]];
    [|simpl; congruence].
  destruct (Schedule.sched_data sc) as [[|e entries]|]; [done| |done].
  destruct (Schedule.scanPage _ _ _ _) as [all' []]; [done|].
  apply IH. unfold Schedule.MAX_PAGES in *. lia.
Qed.

Lemma aggLoop_stops fuel dir dayEnd pageNum totalPages all n s st sc entries :
  pageNum <= totalPages -> pageNum <= Schedule.MAX_PAGES ->
  upstream pageNum = Schedule.Http st (Some sc) -> 200 <= st <= 299 ->
  Schedule.sched_data sc = Some entries ->
  existsb (Schedule.entryCrosses dir dayEnd) entries = true ->
  Schedule.aggLoop now_ms upstream (S fuel) dir dayEnd pageNum totalPages
    all n s
  = (JS.Ok (pageNum, Schedule.orOne (Schedule.page_total sc),
            (all ++ Schedule.uaBeforeBoundary dir dayEnd entries)%list,
            n + Z.of_nat (length entries)),
     Schedule.afterFetch now_ms s pageNum).
Proof.
  intros Htot Hmax Hup Hst Hdata Hcross. simpl.
  destruct (Z.leb_spec pageNum totalPages); [|lia].
  destruct (Z.leb_spec pageNum Schedule.MAX_PAGES); [|lia]. simpl.
  unfold Schedule.bind. rewrite (fetchOnePage_ok _ st sc) by done.
  rewrite Hdata. destruct entries as [|e entries]; [done|].
  by rewrite scanPage_spec, Hcross.
Qed.

Lemma aggLoop_continues fuel dir dayEnd pageNum totalPages all n s st sc
    entries :
  pageNum <= totalPages -> pageNum <= Schedule.MAX_PAGES ->
  upstream pageNum = Schedule.Http st (Some sc) -> 200 <= st <= 299 ->
  Schedule.sched_data sc = Some entries -> entries <> [] ->
  existsb (Schedule.entryCrosses dir dayEnd) entries = false ->
  Schedule.aggLoop now_ms upstream (S fuel) dir dayEnd pageNum totalPages
    all n s
  = Schedule.aggLoop now_ms upstream fuel dir dayEnd (pageNum + 1)
      (Schedule.orOne (Schedule.page_total sc))
      (all ++ Schedule.uaFlights entries)%list
      (n + Z.of_nat (length entries))
      (Schedule.afterFetch now_ms s pageNum).
Proof.
  intros Htot Hmax Hup Hst Hdata Hne Hcross. simpl.
  destruct (Z.leb_spec pageNum totalPages); [|lia].
  destruct (Z.leb_spec pageNum Schedule.MAX_PAGES); [|lia]. simpl.
  unfold Schedule.bind. rewrite (fetchOnePage_ok _ st sc) by done.
  rewrite Hdata. destruct entries as [|e entries]; [done|].
  rewrite scanPage_spec, Hcross. by rewrite uaBeforeBoundary_none.
Qed.

(** The handler always responds: no computation of the model runs
    out of fuel. *)
Local Notation "'fueled' m" :=
  (forall s, fst (m s) <> JS.Throw JS.OutOfFuel) (at level 10, m at level 9).

Lemma fueled_ret {A} (a : A) : fueled (Schedule.ret a).
Proof. done. Qed.

Lemma fueled_bind {A B} (m : Schedule.M A) (k : A -> Schedule.M B) :
  fueled m -> (forall a, fueled (k a)) -> fueled (Schedule.bind m k).
Proof.
  intros Hm Hk s. unfold Schedule.bind. specialize (Hm s).
  destruct (m s) as [[a|e] s']; [apply Hk|].
  simpl in *. intros [= ->]. by apply Hm.
Qed.

Lemma fueled_cacheGetM key : fueled (Schedule.cacheGetM now_ms key).
Proof.
  intros s. unfold Schedule.cacheGetM. by destruct (Schedule.cacheGet _ _ _).
Qed.

Lemma fueled_cacheSetM key d ttl : fueled (Schedule.cacheSetM now_ms key d ttl).
Proof. done. Qed.

Lemma fueled_fetchOnePage page : fueled (Schedule.fetchOnePage now_ms upstream page).
Proof.
  intros s. destruct (fetchOnePage_cases page s) as [[sc ->]|[e [-> He]]];
    simpl; congruence.
Qed.

Lemma fueled_aggregate hub dir ts :
  fueled (Schedule.aggregate now_ms upstream hub dir ts).
Proof.
  unfold Schedule.aggregate. apply fueled_bind.
  - intros s. apply aggLoop_fuel. vm_compute. lia.
  - by intros [[[pageNum totalPages] all] n] s.
Qed.

Lemma fueled_serve hub dir timestamp page :
  fueled (Schedule.serve now_ms upstream hub dir timestamp page).
Proof.
  intros s. unfold Schedule.serve.
  destruct page; (apply fueled_bind; [apply fueled_cacheGetM|]);
    intros [e|]; try done;
    (apply fueled_bind;
     [first [apply fueled_aggregate | apply fueled_fetchOnePage]|]);
    intros r; (apply fueled_bind; [apply fueled_cacheSetM|done]).
Qed.

Theorem handler_total q s : Schedule.handler now_ms upstream q s <> None.
Proof.
  unfold Schedule.handler.
  destruct (negb (JS.truthy (Schedule.q_hub q)) || _); [done|].
  destruct (negb (Schedule.isDir _)); [done|].
  pose proof (fueled_serve (JS.toString (Schedule.q_hub q))
    (JS.toString match Schedule.q_dir q with
                 | JS.VUndefined => JS.VStr "departures"
                 | d => d
                 end) (Schedule.q_timestamp q) (Schedule.q_page q) s) as H.
  destruct (Schedule.serve _ _ _ _ _ _ _) as [[r|e] s']; [done|].
  by destruct e.
Qed.

Lemma existsb_entryCrosses dir dayEnd entries :
  (exists fl, Some fl ∈ entries /\ Schedule.isUA fl = true
              /\ Schedule.pastDayEnd (Schedule.flightTime dir fl) dayEnd = true)
  -> existsb (Schedule.entryCrosses dir dayEnd) entries = true.
Proof.
  intros (fl & Hin & Hua & Hpast). apply existsb_exists.
  exists (Some fl). split; [by apply list_elem_of_In|].
  simpl. unfold Schedule.crossesBoundary. by rewrite Hua, Hpast.
Qed.

Lemma existsb_entryCrosses_false dir dayEnd entries :
  (forall fl, Some fl ∈ entries -> Schedule.isUA fl = true ->
              Schedule.pastDayEnd (Schedule.flightTime dir fl) dayEnd = false)
  -> existsb (Schedule.entryCrosses dir dayEnd) entries = false.
Proof.
  intros H. apply not_true_is_false. intros ([fl|] & Hin & Hc)%existsb_exists;
    [|done].
  simpl in Hc. unfold Schedule.crossesBoundary in Hc.
  apply andb_true_iff in Hc as [Hua Hpast].
  rewrite H in Hpast; [done|by apply list_elem_of_In|done].
Qed.

(** C2, as the code has it.  When the page the loop is at holds a
    flight of the carrier whose relevant timestamp is present, not
    zero, and at or after the end of the day, the loop ends with this
    page: the flights of the carrier before that one are added, the
    page counts in full, and the only fetch is that of this page.  So
    with three pages announced, a first page that is not empty and has
    no such flight and a second page that has one, the aggregation
    fetches pages 1 and 2 only and reports [pagesScanned = 2]. *)
Theorem aggregation_stops_at_boundary_C2
    (fuel : nat) (dir hub : string) (dayEnd : JS.num) (ts : Z)
    (pageNum totalPages : Z) (all : list Schedule.flight) (n : Z)
    (s : Schedule.state) (st st1 st2 : Z) (sc sc1 sc2 : Schedule.sched)
    (entries entries1 entries2 : list (option Schedule.flight)) :
  (pageNum <= totalPages -> pageNum <= Schedule.MAX_PAGES ->
   upstream pageNum = Schedule.Http st (Some sc) -> 200 <= st <= 299 ->
   Schedule.sched_data sc = Some entries ->
   (exists fl, Some fl ∈ entries /\ Schedule.isUA fl = true
      /\ Schedule.pastDayEnd (Schedule.flightTime dir fl) dayEnd = true) ->
   Schedule.aggLoop now_ms upstream (S fuel) dir dayEnd pageNum totalPages
     all n s
   = (JS.Ok (pageNum, Schedule.orOne (Schedule.page_total sc),
             (all ++ Schedule.uaBeforeBoundary dir dayEnd entries)%list,
             n + Z.of_nat (length entries)),
      Schedule.afterFetch now_ms s pageNum))
  /\ (upstream 1 = Schedule.Http st1 (Some sc1) -> 200 <= st1 <= 299 ->
      upstream 2 = Schedule.Http st2 (Some sc2) -> 200 <= st2 <= 299 ->
      Schedule.page_total sc1 = Some 3 -> Schedule.page_total sc2 = Some 3 ->
      Schedule.sched_data sc1 = Some entries1 -> entries1 <> [] ->
      Schedule.sched_data sc2 = Some entries2 ->
      (forall fl, Some fl ∈ entries1 -> Schedule.isUA fl = true ->
         Schedule.pastDayEnd (Schedule.flightTime dir fl) (JS.Int (ts + 86400))
         = false) ->
      (exists fl, Some fl ∈ entries2 /\ Schedule.isUA fl = true
         /\ Schedule.pastDayEnd (Schedule.flightTime dir fl)
              (JS.Int (ts + 86400)) = true) ->
      exists r s',
        Schedule.aggregate now_ms upstream hub dir (JS.Int ts) s
        = (JS.Ok r, s')
        /\ Schedule.pagesScanned r = 2
        /\ Schedule.totalPages r = 3
        /\ Schedule.flights r
           = (Schedule.uaFlights entries1
              ++ Schedule.uaBeforeBoundary dir (JS.Int (ts + 86400)) entries2)%list
        /\ Schedule.totalFetched r
           = Z.of_nat (length entries1) + Z.of_nat (length entries2)
        /\ Schedule.st_trace s'
           = (Schedule.st_trace s
              ++ [Schedule.EvFetch 1; Schedule.EvFetch 2])%list).
Proof.
  split.
  - intros Htot Hmax Hup Hst Hdata Hex.
    by apply (aggLoop_stops _ _ _ _ _ _ _ _ st), existsb_entryCrosses.
  - intros Hup1 Hst1 Hup2 Hst2 Ht1 Ht2 Hd1 Hne Hd2 Hnone Hex.
    unfold Schedule.aggregate, Schedule.bind. simpl Schedule.addNum.
    rewrite (aggLoop_continues 20 _ _ 1 1 [] 0 s st1 sc1 entries1);
      [|done|done|done|done|done|done|by apply existsb_entryCrosses_false].
    rewrite Ht1. simpl Schedule.orOne.
    rewrite (aggLoop_stops 19 _ _ (1 + 1) 3 _ _ _ st2 sc2 entries2);
      [|done|done|done|done|done|by apply existsb_entryCrosses].
    rewrite Ht2. eexists _, _. split; [reflexivity|]. simpl.
    repeat split. by rewrite <- app_assoc.
Qed.

End ScheduleHandler.

Lemma aggregation_stops_at_boundary_C2_witness :
  let dayEnd := JS.Int (Schedule.Sample.dayStart + 86400) in
  let page1 := [Some Schedule.Sample.ua100] in
  let page2 := [Some Schedule.Sample.ua900; Some Schedule.Sample.ua200] in
  Schedule.aggLoop Schedule.Sample.clock Schedule.Sample.upstreamBoundary 1
    "departures" dayEnd 2 3 [Schedule.Sample.ua100] 1 Schedule.Sample.start
  = (JS.Ok (2, Schedule.orOne (Some 3),
            ([Schedule.Sample.ua100]
             ++ Schedule.uaBeforeBoundary "departures" dayEnd page2)%list,
            1 + Z.of_nat (length page2)),
     Schedule.afterFetch Schedule.Sample.clock Schedule.Sample.start 2)
  /\ exists r s',
      Schedule.aggregate Schedule.Sample.clock Schedule.Sample.upstreamBoundary
        "ORD" "departures" (JS.Int Schedule.Sample.dayStart)
        Schedule.Sample.start
      = (JS.Ok r, s')
      /\ Schedule.pagesScanned r = 2
      /\ Schedule.totalPages r = 3
      /\ Schedule.flights r
         = (Schedule.uaFlights page1
            ++ Schedule.uaBeforeBoundary "departures" dayEnd page2)%list
      /\ Schedule.totalFetched r
         = Z.of_nat (length page1) + Z.of_nat (length page2)
      /\ Schedule.st_trace s'
         = (Schedule.st_trace Schedule.Sample.start
            ++ [Schedule.EvFetch 1; Schedule.EvFetch 2])%list.
Proof.
  intros dayEnd page1 page2.
  destruct (aggregation_stops_at_boundary_C2 Schedule.Sample.clock
    Schedule.Sample.upstreamBoundary 0 "departures" "ORD" dayEnd
    Schedule.Sample.dayStart 2 3 [Schedule.Sample.ua100] 1
    Schedule.Sample.start 200 200 200
    (Schedule.Sched (Some 3) (Some page2))
    (Schedule.Sched (Some 3) (Some page1))
    (Schedule.Sched (Some 3) (Some page2))
    page2 page1 page2) as [Hloop Hpages].
  assert (Hcross : exists fl, Some fl ∈ page2 /\ Schedule.isUA fl = true
            /\ Schedule.pastDayEnd (Schedule.flightTime "departures" fl) dayEnd
               = true).
  { exists Schedule.Sample.ua900. split; [by left|]. split; reflexivity. }
  split.
  - apply Hloop; try reflexivity; try lia; try discriminate. exact Hcross.
  - apply Hpages; try reflexivity; try lia; try discriminate.
    + intros fl ->%list_elem_of_singleton%(inj Some) _. reflexivity.
    + exact Hcross.
Defined.


(** C2 as stated fails.  (a) On page 2 a flight of another carrier is
    past the day: the aggregation goes on, requests page 3 and reports
    [pagesScanned = 3].  (b) On a page where a flight of the carrier past
    the day is followed by one of the same day, the scan stops at the
    first: the second is not kept, whereas a scan that finishes the page
    keeps it. *)
Lemma aggregation_claim_fails_C2 :
  Schedule.pastDayEnd
    (Schedule.flightTime "departures" Schedule.Sample.dl50)
    (JS.Int (Schedule.Sample.dayStart + 86400)) = true
  /\ Schedule.Sample.observe
       (Schedule.handler Schedule.Sample.clock
          Schedule.Sample.upstreamOtherCarrier
          (Schedule.Sample.request "1704067200") Schedule.Sample.start)
     = Some (200,
             Schedule.BJson
               (Schedule.DAgg
                  (Schedule.AggResult
                     [Schedule.Sample.ua100; Schedule.Sample.ua200;
                      Schedule.Sample.ua300] 3 4 3 3 "ORD" "departures"))
               false,
             [Schedule.EvCacheGet "agg:ORD:departures:1704067200";
              Schedule.EvFetch 1; Schedule.EvFetch 2; Schedule.EvFetch 3;
              Schedule.EvCacheSet "agg:ORD:departures:1704067200"])
  /\ Schedule.scanPage "departures" (JS.Int (Schedule.Sample.dayStart + 86400))
       [Some Schedule.Sample.ua900; Some Schedule.Sample.ua200] []
     = ([], true)
  /\ Schedule.scanPageAsSpecified "departures"
       (JS.Int (Schedule.Sample.dayStart + 86400))
       [Some Schedule.Sample.ua900; Some Schedule.Sample.ua200] []
     = ([Schedule.Sample.ua200], true).
Proof. vm_compute. repeat split. Qed.


(** ** Epoch conversion *)

(** Linear arithmetic with divisions by constants *)
Ltac div_lia := Z.div_mod_to_equations; lia.

Lemma DayFromYear_step y :
  JSDate.DayFromYear (y + 1) = JSDate.DayFromYear y + JSDate.DaysInYear y.
Proof.
  unfold JSDate.DayFromYear, JSDate.DaysInYear.
  destruct (Z.eqb_spec (y mod 4) 0); simpl;
    [destruct (Z.eqb_spec (y mod 100) 0); simpl;
       [destruct (Z.eqb_spec (y mod 400) 0); simpl|]|]; div_lia.
Qed.

Lemma YearFromTime_spec t :
  JSDate.DayFromYear (JSDate.YearFromTime t) <= JSDate.Day t
  < JSDate.DayFromYear (JSDate.YearFromTime t + 1).
Proof.
  unfold JSDate.YearFromTime. set (d := JSDate.Day t). cbv zeta.
  set (y := 1970 + d * 400 / 146097).
  assert (Hlo : JSDate.DayFromYear (y - 1) <= d).
  { unfold JSDate.DayFromYear, y. div_lia. }
  assert (Hhi : d < JSDate.DayFromYear (y + 1 + 1)).
  { unfold JSDate.DayFromYear, y. div_lia. }
  destruct (Z.ltb_spec d (JSDate.DayFromYear y)).
  - replace (y - 1 + 1) with y by lia. lia.
  - destruct (Z.leb_spec (JSDate.DayFromYear (y + 1)) d); lia.
Qed.

Lemma DaysInYear_isLeap y :
  JSDate.DaysInYear y = if JSDate.isLeap y then 366 else 365.
Proof.
  unfold JSDate.DaysInYear, JSDate.isLeap.
  destruct (Z.eqb_spec (y mod 4) 0); simpl; [|done].
  destruct (Z.eqb_spec (y mod 100) 0); simpl; [|done].
  by destruct (Z.eqb_spec (y mod 400) 0).
Qed.

Lemma DayFromYear_daysOfYears n :
  JSDate.DayFromYear (1970 + Z.of_nat n) = JSDate.daysOfYears n.
Proof.
  induction n as [|n IH]; [done|].
  replace (1970 + Z.of_nat (S n)) with (1970 + Z.of_nat n + 1) by lia.
  rewrite DayFromYear_step, IH, DaysInYear_isLeap. done.
Qed.

Lemma YearFromTime_ge t : 0 <= t -> 1970 <= JSDate.YearFromTime t.
Proof.
  intros Ht. pose proof (YearFromTime_spec t) as [_ Hhi].
  assert (Hd : 0 <= JSDate.Day t) by (unfold JSDate.Day, JSDate.msPerDay; div_lia).
  revert Hhi. generalize (JSDate.YearFromTime t). intros y.
  unfold JSDate.DayFromYear. div_lia.
Qed.

Lemma calendar_of_time t :
  0 <= t ->
  let y := JSDate.YearFromTime t in
  let m := JSDate.MonthFromTime t in
  let dt := JSDate.DateFromTime t in
  1970 <= y /\ 0 <= m <= 11
  /\ 1 <= dt <= nth (Z.to_nat m) (JSDate.monthLengths y) 0
  /\ dt <= 31
  /\ JSDate.daysOfYears (Z.to_nat (y - 1970))
     + JSDate.daysBeforeMonth y (Z.to_nat m) + (dt - 1) = JSDate.Day t.
Proof.
  intros Ht. cbv zeta.
  pose proof (YearFromTime_ge t Ht) as Hy.
  pose proof (YearFromTime_spec t) as [Hlo Hhi].
  rewrite DayFromYear_step, DaysInYear_isLeap in Hhi.
  split; [done|].
  rewrite <- DayFromYear_daysOfYears.
  replace (1970 + Z.of_nat (Z.to_nat (JSDate.YearFromTime t - 1970)))
    with (JSDate.YearFromTime t) by lia.
  unfold JSDate.DateFromTime, JSDate.MonthFromTime, JSDate.InLeapYear,
    JSDate.DayWithinYear, JSDate.daysBeforeMonth, JSDate.monthLengths.
  rewrite DaysInYear_isLeap.
  set (y := JSDate.YearFromTime t) in *.
  set (d := JSDate.Day t) in *.
  set (d0 := JSDate.DayFromYear y) in *.
  destruct (JSDate.isLeap y); simpl;
    repeat (match goal with
            | |- context [?a <? ?b] => destruct (Z.ltb_spec a b)
            end);
    simpl; lia.
Qed.

Lemma time_of_day t :
  0 <= t ->
  ((JSDate.Day t * 24 + JSDate.HourFromTime t) * 60 + JSDate.MinFromTime t)
    * 60000 + JSDate.SecFromTime t * 1000 + JSDate.msFromTime t = t
  /\ 0 <= JSDate.HourFromTime t < 24 /\ 0 <= JSDate.MinFromTime t < 60
  /\ 0 <= JSDate.SecFromTime t < 60 /\ 0 <= JSDate.msFromTime t < 1000.
Proof.
  intros Ht. unfold JSDate.Day, JSDate.msPerDay, JSDate.HourFromTime,
    JSDate.MinFromTime, JSDate.SecFromTime, JSDate.msFromTime. div_lia.
Qed.

Lemma string_length_app (s1 s2 : string) :
  String.length (s1 ++ s2) = (String.length s1 + String.length s2)%nat.
Proof. induction s1 as [|c s1 IH]; simpl; [done|]. by rewrite IH. Qed.

Lemma pad_length k n : String.length (JS.pad k n) = k.
Proof.
  revert n. induction k as [|k IH]; intros n; [done|].
  change (JS.pad (S k) n)
    with (JS.pad k (n / 10)
          ++ String (ascii_of_nat (Z.to_nat (48 + n mod 10))) EmptyString).
  rewrite string_length_app, IH. simpl. lia.
Qed.

Lemma readDigits_app acc s1 s2 :
  JSDate.readDigits acc (s1 ++ s2)
  = match JSDate.readDigits acc s1 with
    | Some a => JSDate.readDigits a s2
    | None => None
    end.
Proof.
  revert acc. induction s1 as [|c s1 IH]; intros acc; [done|].
  change (String c s1 ++ s2) with (String c (s1 ++ s2)). simpl.
  destruct (JS.isDigit c); [apply IH|done].
Qed.

Lemma readDigits_digit acc d :
  0 <= d <= 9 ->
  JSDate.readDigits acc (String (ascii_of_nat (Z.to_nat (48 + d))) EmptyString)
  = Some (10 * acc + d).
Proof.
  intros Hd. simpl. unfold JS.isDigit.
  rewrite nat_ascii_embedding by lia.
  destruct (Nat.leb_spec 48 (Z.to_nat (48 + d))); [|lia].
  destruct (Nat.leb_spec (Z.to_nat (48 + d)) 57); [|lia].
  simpl. f_equal. lia.
Qed.

Lemma readDigits_pad k n acc :
  0 <= n < 10 ^ Z.of_nat k ->
  JSDate.readDigits acc (JS.pad k n) = Some (acc * 10 ^ Z.of_nat k + n).
Proof.
  revert n acc. induction k as [|k IH]; intros n acc Hn.
  - simpl in *. f_equal. lia.
  - change (JS.pad (S k) n)
      with (JS.pad k (n / 10)
            ++ String (ascii_of_nat (Z.to_nat (48 + n mod 10))) EmptyString).
    rewrite Nat2Z.inj_succ, Z.pow_succ_r in * by lia.
    rewrite readDigits_app, IH by div_lia.
    rewrite readDigits_digit by div_lia. f_equal.
    set (p := 10 ^ Z.of_nat k) in *. div_lia.
Qed.

Lemma YearFromTime_le t :
  0 <= t <= 8640000000000000 -> JSDate.YearFromTime t < 1000000.
Proof.
  intros Ht. pose proof (YearFromTime_spec t) as [Hlo _].
  assert (Hd : JSDate.Day t <= 100000000)
    by (unfold JSDate.Day, JSDate.msPerDay; div_lia).
  revert Hlo. generalize (JSDate.YearFromTime t). intros y.
  unfold JSDate.DayFromYear. div_lia.
Qed.

Lemma readDigits_pad0 k n :
  0 <= n < 10 ^ Z.of_nat k -> JSDate.readDigits 0 (JS.pad k n) = Some n.
Proof. intros Hn. rewrite readDigits_pad by done. f_equal; lia. Qed.

(** The string printed for a time value of the range of [Date] denotes
    the calendar date that lies this many milliseconds after the epoch. *)
Lemma isoOfTime_denotes t :
  0 <= t <= 8640000000000000 ->
  exists c,
    JSDate.validCivil c /\ JSDate.civilToTime c = t
    /\ JSDate.denotes (JSDate.isoOfTime t) c.
Proof.
  intros Ht.
  destruct (calendar_of_time t (proj1 Ht)) as (Hy & Hm & Hd & Hd31 & Hday).
  destruct (time_of_day t (proj1 Ht)) as (Htime & Hh & Hmi & Hs & Hms).
  pose proof (YearFromTime_le t Ht) as Hymax.
  exists (JSDate.Civil (JSDate.YearFromTime t) (JSDate.MonthFromTime t + 1)
            (JSDate.DateFromTime t) (JSDate.HourFromTime t)
            (JSDate.MinFromTime t) (JSDate.SecFromTime t) (JSDate.msFromTime t)).
  split; [|split].
  - unfold JSDate.validCivil.
    cbn [JSDate.c_year JSDate.c_month JSDate.c_day JSDate.c_hour JSDate.c_min
         JSDate.c_sec JSDate.c_ms].
    replace (JSDate.MonthFromTime t + 1 - 1) with (JSDate.MonthFromTime t) by lia.
    repeat split; lia.
  - unfold JSDate.civilToTime.
    cbn [JSDate.c_year JSDate.c_month JSDate.c_day JSDate.c_hour JSDate.c_min
         JSDate.c_sec JSDate.c_ms].
    replace (JSDate.MonthFromTime t + 1 - 1) with (JSDate.MonthFromTime t) by lia.
    rewrite Hday. exact Htime.
  - unfold JSDate.denotes, JSDate.isoOfTime.
    cbn [JSDate.c_year JSDate.c_month JSDate.c_day JSDate.c_hour JSDate.c_min
         JSDate.c_sec JSDate.c_ms].
    exists (JSDate.isoYear (JSDate.YearFromTime t)),
      (JS.pad 2 (JSDate.MonthFromTime t + 1)), (JS.pad 2 (JSDate.DateFromTime t)),
      (JS.pad 2 (JSDate.HourFromTime t)), (JS.pad 2 (JSDate.MinFromTime t)),
      (JS.pad 2 (JSDate.SecFromTime t)), (JS.pad 3 (JSDate.msFromTime t)).
    split; [done|]. split; [repeat split; apply pad_length|].
    split.
    { unfold JSDate.isoYear.
      destruct (Z.leb_spec 0 (JSDate.YearFromTime t)); [|lia].
      destruct (Z.leb_spec (JSDate.YearFromTime t) 9999); cbn [andb].
      - left. rewrite pad_length. split; [done|].
        apply readDigits_pad0. simpl. lia.
      - right. destruct (Z.ltb_spec (JSDate.YearFromTime t) 0); [lia|].
        exists (JS.pad 6 (Z.abs (JSDate.YearFromTime t))).
        rewrite pad_length, Z.abs_eq by lia.
        repeat split; [lia|]. apply readDigits_pad0. simpl. lia. }
    repeat split; apply readDigits_pad0; simpl; lia.
Qed.




Example epochToISO_examples :
  FlightTimes.epochToISO (FlightTimes.ENumber 1700000000)
  = JS.Ok "2023-11-14T22:13:20.000Z"
  /\ FlightTimes.epochToISO (FlightTimes.ENumber 1709210096)
     = JS.Ok "2024-02-29T12:34:56.000Z"
  /\ FlightTimes.epochToISO (FlightTimes.ENumber 253402300800)
     = JS.Ok "+010000-01-01T00:00:00.000Z"
  /\ FlightTimes.epochToISO (FlightTimes.ENumber 8640000000000)
     = JS.Ok "+275760-09-13T00:00:00.000Z".
Proof. vm_compute. repeat split. Qed.

(** ** The JavaScript fragment on samples *)

Example parseInt_examples :
  JS.parseInt "  -12abc" = JS.Int (-12) /\ JS.parseInt "abc" = JS.NaN
  /\ JS.parseInt "0x1F" = JS.Int 31 /\ JS.parseInt "1704067200" = JS.Int 1704067200
  /\ JS.parseInt "" = JS.NaN /\ JS.parseInt "-" = JS.NaN
  /\ JS.showZ (-120) = "-120" /\ JS.showZ 0 = "0"
  /\ JS.trim "  a b  " = "a b" /\ JS.toUpperCase "ua 12z" = "UA 12Z".
Proof. vm_compute. repeat split. Qed.

(** * Further properties of the schedule endpoint *)

Section ScheduleMore.
Variable now_ms : nat -> Z.
Variable upstream : Z -> Schedule.response.

Lemma fetchesFrom_S p k :
  Schedule.fetchesFrom p (S k) = Schedule.EvFetch p :: Schedule.fetchesFrom (p + 1) k.
Proof.
  unfold Schedule.fetchesFrom. simpl seq. simpl map. rewrite Z.add_0_r.
  f_equal. rewrite <- seq_shift, map_map. apply map_ext. intros i.
  f_equal. lia.
Qed.

Lemma fetchesFrom_1 p : Schedule.fetchesFrom p 1 = [Schedule.EvFetch p].
Proof. unfold Schedule.fetchesFrom. simpl. by rewrite Z.add_0_r. Qed.

Lemma uaBeforeBoundary_kept dir dayEnd entries :
  Forall (Schedule.keptFlight dir dayEnd)
    (Schedule.uaBeforeBoundary dir dayEnd entries).
Proof.
  induction entries as [|[fl|] rest IH]; simpl; [constructor| |exact IH].
  unfold Schedule.crossesBoundary.
  destruct (Schedule.isUA fl) eqn:Hua; simpl; [|exact IH].
  destruct (Schedule.pastDayEnd _ _) eqn:Hp; simpl; [constructor|].
  constructor; [by split|exact IH].
Qed.

Lemma uaBeforeBoundary_length dir dayEnd entries :
  (length (Schedule.uaBeforeBoundary dir dayEnd entries) <= length entries)%nat.
Proof.
  induction entries as [|[fl|] rest IH]; simpl; [lia| |lia].
  destruct (Schedule.crossesBoundary _ _ _); simpl; [lia|].
  destruct (Schedule.isUA fl); simpl; lia.
Qed.

(** What an execution of the loop does, whatever the upstream answers. *)
Local Ltac close_run :=
  repeat split;
  first [done | lia | unfold Schedule.MAX_PAGES in *; lia | idtac].

Lemma aggLoop_run fuel dir dayEnd pageNum totalPages all n s :
  exists k : nat,
    let r := Schedule.aggLoop now_ms upstream fuel dir dayEnd pageNum
               totalPages all n s in
    Schedule.st_trace r.2
    = (Schedule.st_trace s ++ Schedule.fetchesFrom pageNum k)%list
    /\ Schedule.st_cache r.2 = Schedule.st_cache s
    /\ ((0 < k)%nat -> pageNum + Z.of_nat k - 1 <= Schedule.MAX_PAGES)
    /\ (pageNum <= totalPages -> pageNum <= Schedule.MAX_PAGES ->
        (0 < fuel)%nat -> (0 < k)%nat)
    /\ match r.1 with
       | JS.Ok (pn, tp, all', n') =>
           Z.min (Z.min pn tp) Schedule.MAX_PAGES <= pageNum - 1 + Z.of_nat k
           /\ (Forall (Schedule.keptFlight dir dayEnd) all ->
               Forall (Schedule.keptFlight dir dayEnd) all')
           /\ Z.of_nat (length all') - Z.of_nat (length all) <= n' - n
       | JS.Throw _ => True
       end.
Proof.
  revert pageNum totalPages all n s.
  induction fuel as [|fuel IH]; intros pageNum totalPages all n s.
  { exists 0%nat. simpl. rewrite app_nil_r. close_run. }
  cbv zeta. simpl Schedule.aggLoop.
  destruct (Z.leb_spec pageNum totalPages) as [Htot|Htot]; simpl andb.
  2:{ exists 0%nat. simpl. rewrite app_nil_r. close_run. }
  destruct (Z.leb_spec pageNum Schedule.MAX_PAGES) as [Hmax|Hmax].
  2:{ exists 0%nat. simpl. rewrite app_nil_r. close_run. }
  unfold Schedule.bind. change (true && true) with true. cbv beta iota.
  destruct (fetchOnePage_cases now_ms upstream pageNum s) as [[sc ->]|[e [-> He]]].
  2:{ exists 1%nat. rewrite fetchesFrom_1. simpl. close_run. }
  destruct (Schedule.sched_data sc) as [[|e entries]|].
  1,3: exists 1%nat; rewrite fetchesFrom_1; simpl; close_run.
  rewrite scanPage_spec.
  destruct (existsb _ _) eqn:Hcross.
  { exists 1%nat. rewrite fetchesFrom_1. unfold Schedule.ret. cbn [fst snd].
    simpl Schedule.st_trace. simpl Schedule.st_cache.
    pose proof (uaBeforeBoundary_length dir dayEnd (e :: entries)) as Hl.
    pose proof (uaBeforeBoundary_kept dir dayEnd (e :: entries)) as Hk.
    close_run.
    - intros Hall. by apply Forall_app.
    - rewrite length_app. lia. }
  destruct (IH (pageNum + 1) (Schedule.orOne (Schedule.page_total sc))
              (all ++ Schedule.uaBeforeBoundary dir dayEnd (e :: entries))%list
              (n + Z.of_nat (length (e :: entries)))
              (Schedule.afterFetch now_ms s pageNum))
    as (k & Htr & Hc & Hb & Hpos & Hres).
  cbv zeta in *. exists (S k). rewrite fetchesFrom_S.
  destruct (Schedule.aggLoop _ _ _ _ _ _ _ _ _ _) as [res s'].
  cbn [fst snd] in *. simpl Schedule.st_trace in Htr. rewrite <- app_assoc in Htr.
  split; [exact Htr|]. split; [exact Hc|].
  split; [intros _; destruct k; unfold Schedule.MAX_PAGES in *; lia|].
  split; [lia|].
  destruct res as [[[[pn tp] all'] n']|]; [|done].
  destruct Hres as (Hmin & Hkept & Hlen).
  pose proof (uaBeforeBoundary_length dir dayEnd (e :: entries)) as Hl.
  pose proof (uaBeforeBoundary_kept dir dayEnd (e :: entries)) as Hk.
  split; [lia|]. split.
  - intros Hall. apply Hkept. by apply Forall_app.
  - rewrite length_app in Hlen. lia.
Qed.

(** X1.  The aggregation fetches the pages 1, 2, ..., [k] in this order
    for some [k] between 1 and [MAX_PAGES] = 20, whatever the upstream
    answers and whether it ends with a result or an error; it does not
    touch the cache; and the [pagesScanned] of a result never exceeds the
    number of pages fetched. *)
Theorem aggregate_fetches_at_most_20 hub dir ts s :
  exists k : nat,
    let r := Schedule.aggregate now_ms upstream hub dir ts s in
    (1 <= k <= 20)%nat
    /\ Schedule.st_trace r.2
       = (Schedule.st_trace s ++ Schedule.fetchesFrom 1 k)%list
    /\ Schedule.st_cache r.2 = Schedule.st_cache s
    /\ forall res, r.1 = JS.Ok res -> Schedule.pagesScanned res <= Z.of_nat k.
Proof.
  unfold Schedule.aggregate, Schedule.bind.
  destruct (aggLoop_run 21 dir (Schedule.addNum ts 86400) 1 1 [] 0 s)
    as (k & Htr & Hc & Hb & Hpos & Hres).
  cbv zeta in *. exists k.
  destruct (Schedule.aggLoop _ _ _ _ _ _ _ _ _ _) as [[[[[pn tp] all] n]|e] s'];
    cbn [fst snd] in *; unfold Schedule.MAX_PAGES in *.
  - split; [lia|]. split; [done|]. split; [done|].
    intros res [= <-]. simpl. unfold Schedule.MAX_PAGES. lia.
  - split; [lia|]. split; [done|]. split; [done|]. by intros res.
Qed.

(** X2.  Every flight of an aggregated result is of the carrier and is not
    past the end of the day, and the result never counts more flights
    than records fetched. *)
Theorem aggregate_flights_kept hub dir ts s res s' :
  Schedule.aggregate now_ms upstream hub dir ts s = (JS.Ok res, s') ->
  Forall (Schedule.keptFlight dir (Schedule.addNum ts 86400))
    (Schedule.flights res)
  /\ Schedule.total res = Z.of_nat (length (Schedule.flights res))
  /\ 0 <= Schedule.total res <= Schedule.totalFetched res.
Proof.
  unfold Schedule.aggregate, Schedule.bind.
  destruct (aggLoop_run 21 dir (Schedule.addNum ts 86400) 1 1 [] 0 s)
    as (k & _ & _ & _ & _ & Hres).
  cbv zeta in *.
  destruct (Schedule.aggLoop _ _ _ _ _ _ _ _ _ _) as [[[[[pn tp] all] n]|e] s1];
    cbn [fst snd] in *; [|done].
  intros [= <- <-]. simpl. destruct Hres as (_ & Hkept & Hlen).
  split; [by apply Hkept|]. split; [done|]. simpl in Hlen. lia.
Qed.

Lemma aggregate_cache hub dir ts s :
  Schedule.st_cache (Schedule.aggregate now_ms upstream hub dir ts s).2
  = Schedule.st_cache s.
Proof.
  unfold Schedule.aggregate, Schedule.bind.
  destruct (aggLoop_run 21 dir (Schedule.addNum ts 86400) 1 1 [] 0 s)
    as (k & _ & Hc & _).
  cbv zeta in *.
  by destruct (Schedule.aggLoop _ _ _ _ _ _ _ _ _ _)
    as [[[[[pn tp] all] n]|e] s'].
Qed.

Lemma schedule_cacheGet_inv {D} now key (c c' : Schedule.cache D) o :
  Schedule.cacheGet now key c = (o, c') ->
  match o with
  | Some e => c' = c /\ OMap.get key c = Some e /\ now <= Schedule.expires e
  | None => c' = c \/ c' = OMap.delete key c
  end.
Proof.
  unfold Schedule.cacheGet. destruct (OMap.get key c) as [e|] eqn:Hg.
  - destruct (Z.gtb_spec now (Schedule.expires e)); intros [= <- <-]; auto.
  - intros [= <- <-]. auto.
Qed.

(** The work of a request on a cache miss: the aggregation or the fetch
    of one page.  It leaves the cache as it is. *)
Lemma serve_work_cache q s :
  Schedule.st_cache
    (Schedule.aggregate now_ms upstream (JS.toString (Schedule.q_hub q))
       (JS.toString match Schedule.q_dir q with
                    | JS.VUndefined => JS.VStr "departures"
                    | d => d
                    end)
       (JS.parseInt (JS.toString (Schedule.q_timestamp q))) s).2
  = Schedule.st_cache s
  /\ Schedule.st_cache
       (Schedule.fetchOnePage now_ms upstream (Schedule.firstPageOf q) s).2
     = Schedule.st_cache s.
Proof.
  split.
  - apply aggregate_cache.
  - by destruct (fetchOnePage_cases now_ms upstream (Schedule.firstPageOf q) s)
      as [[sc ->]|[e [-> _]]].
Qed.

Lemma handler_valid q s :
  Schedule.validQuery q = true ->
  Schedule.handler now_ms upstream q s
  = match Schedule.serve now_ms upstream (JS.toString (Schedule.q_hub q))
            (JS.toString match Schedule.q_dir q with
                         | JS.VUndefined => JS.VStr "departures"
                         | d => d
                         end)
            (Schedule.q_timestamp q) (Schedule.q_page q) s with
    | (JS.Ok r, s') => Some (r, s')
    | (JS.Throw JS.AbortError, s') =>
        Some (Schedule.Respond 504 None (Schedule.BError "FR24 timeout"), s')
    | (JS.Throw (JS.Error msg), s') =>
        Some (Schedule.Respond 500 None (Schedule.BError msg), s')
    | (JS.Throw JS.OutOfFuel, _) => None
    | (JS.Throw _, s') =>
        Some (Schedule.Respond 500 None (Schedule.BError ""), s')
    end.
Proof.
  unfold Schedule.validQuery, Schedule.handler.
  intros [[-> ->]%andb_true_iff ->]%andb_true_iff. done.
Qed.

Lemma handler_invalid q s :
  Schedule.validQuery q = false ->
  exists msg,
    Schedule.handler now_ms upstream q s
    = Some (Schedule.Respond 400 None (Schedule.BError msg), s).
Proof.
  unfold Schedule.validQuery, Schedule.handler. intros H.
  destruct (JS.truthy (Schedule.q_hub q)); simpl in *; [|by eexists].
  destruct (JS.truthy (Schedule.q_timestamp q)); simpl in *; [|by eexists].
  rewrite H. simpl. by eexists.
Qed.

(** The handler on a request that passes the validation: one reading of
    the clock, the cache lookup under the key of the request, and on a
    miss the work, the write of its result and the answer. *)
Lemma serve_view q s :
  let key := Schedule.cacheKeyOf q in
  let ttl := Schedule.ttlOf now_ms q s in
  let s0 := Schedule.State (Schedule.st_cache s) (Schedule.st_last s)
              (S (Schedule.st_reads s)) (Schedule.st_trace s) in
  let ok d c :=
    JS.Ok (Schedule.Respond 200 (Some (ttl / 1000)) (Schedule.BJson d c)) in
  Schedule.serve now_ms upstream (JS.toString (Schedule.q_hub q))
    (JS.toString match Schedule.q_dir q with
                 | JS.VUndefined => JS.VStr "departures"
                 | d => d
                 end)
    (Schedule.q_timestamp q) (Schedule.q_page q) s
  = match Schedule.cacheGetM now_ms key s0 with
    | (JS.Ok (Some e), s1) => (ok (Schedule.data e) true, s1)
    | (JS.Ok None, s1) =>
        match Schedule.serveWork now_ms upstream q s1 with
        | (JS.Ok d, s2) =>
            (ok d false, (Schedule.cacheSetM now_ms key d ttl s2).2)
        | (JS.Throw e, s2) => (JS.Throw e, s2)
        end
    | (JS.Throw e, s1) => (JS.Throw e, s1)
    end.
Proof.
  cbv zeta. unfold Schedule.serve, Schedule.serveWork, Schedule.cacheKeyOf,
    Schedule.firstPageOf, Schedule.ttlOf, Schedule.bind, Schedule.ret.
  destruct (Schedule.q_page q);
    (destruct (Schedule.cacheGetM _ _ _) as [[[e|]|e] s1]; [done| |done]);
    first [ by destruct (Schedule.aggregate _ _ _ _ _ _) as [[r|e] s2]
          | by destruct (Schedule.fetchOnePage _ _ _ _) as [[r|e] s2] ].
Qed.

Lemma serveWork_cache q s :
  Schedule.st_cache (Schedule.serveWork now_ms upstream q s).2
  = Schedule.st_cache s.
Proof.
  destruct (serve_work_cache q s) as [Hagg Hone].
  unfold Schedule.serveWork, Schedule.bind, Schedule.ret.
  destruct (Schedule.q_page q);
    first [ by destruct (Schedule.aggregate _ _ _ _ _ _) as [[r|e] s2]
          | by destruct (Schedule.fetchOnePage _ _ _ _) as [[r|e] s2] ].
Qed.

(** A request whose answer is in the cache and has not expired is
    answered from the cache, with [cached: true], after two readings of
    the clock and no fetch. *)
Lemma handler_hit q s e :
  Schedule.validQuery q = true ->
  OMap.get (Schedule.cacheKeyOf q) (Schedule.st_cache s) = Some e ->
  now_ms (S (Schedule.st_reads s)) <= Schedule.expires e ->
  Schedule.handler now_ms upstream q s
  = Some (Schedule.Respond 200 (Some (Schedule.ttlOf now_ms q s / 1000))
            (Schedule.BJson (Schedule.data e) true),
          Schedule.State (Schedule.st_cache s) (Schedule.st_last s)
            (S (Schedule.st_reads s) + 1)
            (Schedule.st_trace s
             ++ [Schedule.EvCacheGet (Schedule.cacheKeyOf q)])).
Proof.
  intros Hv Hg Hlive. rewrite handler_valid, serve_view by done.
  unfold Schedule.cacheGetM. cbn [Schedule.st_reads Schedule.st_cache].
  rewrite (schedule_cacheGet_live _ _ e) by done. by rewrite Hg.
Qed.

(** X4.  A response other than 200 leaves the cache without any new
    entry: it is the cache as it was, or as it was less the expired
    entry of the request. *)
Theorem handler_failure_not_cached q s r s' :
  Schedule.handler now_ms upstream q s = Some (r, s') ->
  Schedule.status r <> 200 ->
  Schedule.st_cache s' = Schedule.st_cache s
  \/ Schedule.st_cache s'
     = OMap.delete (Schedule.cacheKeyOf q) (Schedule.st_cache s).
Proof.
  intros H Hst. destruct (Schedule.validQuery q) eqn:Hv.
  2:{ destruct (handler_invalid q s Hv) as [msg Hm]. rewrite Hm in H.
      injection H as <- <-. by left. }
  rewrite handler_valid, serve_view in H by done. cbv zeta in H.
  unfold Schedule.cacheGetM in H. cbn [Schedule.st_reads Schedule.st_cache] in H.
  destruct (Schedule.cacheGet _ _ _) as [o c] eqn:Hcg.
  apply schedule_cacheGet_inv in Hcg.
  destruct o as [e|].
  { injection H as <- <-. by destruct Hst. }
  match type of H with
  | context [Schedule.serveWork _ _ _ ?s1] =>
      pose proof (serveWork_cache q s1) as Hw;
      destruct (Schedule.serveWork now_ms upstream q s1) as [[d|e] s2]
  end.
  { injection H as <- <-. by destruct Hst. }
  cbn [snd Schedule.st_cache Schedule.emit] in Hw.
  assert (Schedule.st_cache s' = c) as ->.
  { destruct e; try (injection H as <- <-; exact Hw). done. }
  exact Hcg.
Qed.

(** After a 200 the answer is in the cache under the key of the
    request. *)
Lemma handler_ok_cached q s r s' :
  Schedule.handler now_ms upstream q s = Some (r, s') ->
  Schedule.status r = 200 ->
  Schedule.validQuery q = true
  /\ exists e c,
       OMap.get (Schedule.cacheKeyOf q) (Schedule.st_cache s') = Some e
       /\ Schedule.resp_body r = Schedule.BJson (Schedule.data e) c.
Proof.
  intros H Hst. destruct (Schedule.validQuery q) eqn:Hv.
  2:{ destruct (handler_invalid q s Hv) as [msg Hm]. rewrite Hm in H.
      injection H as <- <-. done. }
  split; [done|].
  rewrite handler_valid, serve_view in H by done. cbv zeta in H.
  unfold Schedule.cacheGetM in H. cbn [Schedule.st_reads Schedule.st_cache] in H.
  destruct (Schedule.cacheGet _ _ _) as [o c] eqn:Hcg.
  apply schedule_cacheGet_inv in Hcg.
  destruct o as [e|].
  { injection H as <- <-. destruct Hcg as (-> & Hg & _). by exists e, true. }
  destruct (Schedule.serveWork _ _ _ _) as [[d|e] s2].
  - injection H as <- <-. eexists _, false.
    split; [apply schedule_cacheSet_get|reflexivity].
  - destruct e; try (injection H as <- <-; done). done.
Qed.

(** X5.  The errors of the first fetch of a request that misses the
    cache.  A fetch aborted by the timer is answered 504 'FR24 timeout';
    a failed fetch, 500 with its message; a status outside 200..299, 500
    'FR24 returned <status>'; a body without the schedule, 500 'No
    schedule data in response'. *)
Theorem handler_fetch_errors q s :
  Schedule.validQuery q = true ->
  (Schedule.cacheGet (now_ms (S (Schedule.st_reads s)))
     (Schedule.cacheKeyOf q) (Schedule.st_cache s)).1 = None ->
  let answer :=
    option_map (fun rs => (Schedule.status rs.1, Schedule.resp_body rs.1))
      (Schedule.handler now_ms upstream q s) in
  (upstream (Schedule.firstPageOf q) = Schedule.NetAbort ->
   answer = Some (504, Schedule.BError "FR24 timeout"))
  /\ (forall msg, upstream (Schedule.firstPageOf q) = Schedule.NetError msg ->
      answer = Some (500, Schedule.BError msg))
  /\ (forall st body, upstream (Schedule.firstPageOf q) = Schedule.Http st body ->
      ~ 200 <= st <= 299 ->
      answer = Some (500, Schedule.BError ("FR24 returned " ++ JS.showZ st)))
  /\ (forall st, upstream (Schedule.firstPageOf q) = Schedule.Http st None ->
      200 <= st <= 299 ->
      answer = Some (500, Schedule.BError "No schedule data in response")).
Proof.
  intros Hv Hmiss. cbv zeta.
  rewrite handler_valid, serve_view by done. cbv zeta.
  unfold Schedule.cacheGetM. cbn [Schedule.st_reads Schedule.st_cache].
  destruct (Schedule.cacheGet _ _ _) as [o c]. simpl in Hmiss. subst o.
  set (s1 := Schedule.emit _ _ _ _ _).
  assert (Hwork : forall e s2,
            Schedule.fetchOnePage now_ms upstream (Schedule.firstPageOf q) s1
            = (JS.Throw e, s2) ->
            Schedule.serveWork now_ms upstream q s1 = (JS.Throw e, s2)).
  { intros e s2 Hf. unfold Schedule.serveWork, Schedule.firstPageOf in *.
    destruct (Schedule.q_page q); unfold Schedule.bind; try by rewrite Hf.
    unfold Schedule.aggregate, Schedule.bind.
    simpl Schedule.aggLoop. unfold Schedule.bind. by rewrite Hf. }
  unfold Schedule.fetchOnePage, Schedule.rateLimitedFetchM, Schedule.bind in Hwork.
  cbn [Schedule.rateLimitedFetch_acquire] in Hwork.
  repeat split.
  - intros Hup. rewrite Hup in Hwork. by rewrite (Hwork _ _ eq_refl).
  - intros msg Hup. rewrite Hup in Hwork. by rewrite (Hwork _ _ eq_refl).
  - intros st body Hup Hst. rewrite Hup in Hwork.
    assert (negb ((200 <=? st) && (st <=? 299)) = true) as Hn.
    { apply negb_true_iff, andb_false_iff.
      destruct (Z.leb_spec 200 st); [|by left].
      destruct (Z.leb_spec st 299); [lia|by right]. }
    rewrite Hn in Hwork. by rewrite (Hwork _ _ eq_refl).
  - intros st Hup Hst. rewrite Hup in Hwork.
    assert (negb ((200 <=? st) && (st <=? 299)) = false) as Hn.
    { apply negb_false_iff, andb_true_iff. split; apply Z.leb_le; lia. }
    rewrite Hn in Hwork. by rewrite (Hwork _ _ eq_refl).
Qed.

(** X6.  With [page] in the query, on a cache miss, the handler fetches
    that one page (page 1 when [page] is not a number or is 0), answers
    with the schedule as the upstream gave it, flights of all carriers
    included, and stores it under the key of the request with the time
    to live of the request. *)
Theorem handler_single_page q s st sc :
  Schedule.validQuery q = true ->
  Schedule.q_page q <> JS.VUndefined ->
  (Schedule.cacheGet (now_ms (S (Schedule.st_reads s)))
     (Schedule.cacheKeyOf q) (Schedule.st_cache s)).1 = None ->
  upstream (Schedule.firstPageOf q) = Schedule.Http st (Some sc) ->
  200 <= st <= 299 ->
  exists s' e,
    Schedule.handler now_ms upstream q s
    = Some (Schedule.Respond 200 (Some (Schedule.ttlOf now_ms q s / 1000))
              (Schedule.BJson (Schedule.DPage sc) false), s')
    /\ Schedule.st_trace s'
       = (Schedule.st_trace s
          ++ [Schedule.EvCacheGet (Schedule.cacheKeyOf q);
              Schedule.EvFetch (Schedule.firstPageOf q);
              Schedule.EvCacheSet (Schedule.cacheKeyOf q)])%list
    /\ OMap.get (Schedule.cacheKeyOf q) (Schedule.st_cache s') = Some e
    /\ Schedule.data e = Schedule.DPage sc
    /\ exists k, (Schedule.st_reads s <= k < Schedule.st_reads s')%nat
         /\ Schedule.expires e = now_ms k + Schedule.ttlOf now_ms q s.
Proof.
  intros Hv Hpage Hmiss Hup Hst.
  rewrite handler_valid, serve_view by done. cbv zeta.
  unfold Schedule.cacheGetM. cbn [Schedule.st_reads Schedule.st_cache].
  destruct (Schedule.cacheGet _ _ _) as [o c] eqn:Hcg. simpl in Hmiss. subst o.
  assert (Hreads : OMap.get (Schedule.cacheKeyOf q) (Schedule.st_cache s) <> None
                   \/ OMap.get (Schedule.cacheKeyOf q) (Schedule.st_cache s) = None).
  { destruct (OMap.get _ _); [by left|by right]. }
  set (s1 := Schedule.emit _ _ _ _ _).
  assert (Hwork : Schedule.serveWork now_ms upstream q s1
                  = (JS.Ok (Schedule.DPage sc),
                     Schedule.afterFetch now_ms s1 (Schedule.firstPageOf q))).
  { pose proof (fetchOnePage_ok now_ms upstream _ st sc s1 Hup Hst) as Hf.
    unfold Schedule.serveWork, Schedule.bind.
    destruct (Schedule.q_page q) eqn:Hp; [done|by rewrite Hf..]. }
  rewrite Hwork. subst s1. eexists _, _. split; [reflexivity|].
  unfold Schedule.cacheSetM, Schedule.emit, Schedule.afterFetch.
  cbn [snd Schedule.st_trace Schedule.st_cache Schedule.st_reads].
  split; [by rewrite <- !app_assoc|].
  split; [apply schedule_cacheSet_get|]. split; [done|].
  eexists. split; [|reflexivity]. lia.
Qed.
End ScheduleMore.

Lemma aggregate_fetches_at_most_20_witness :
  exists k : nat,
    let r := Schedule.aggregate Schedule.Sample.clock
               Schedule.Sample.upstreamOtherCarrier "ORD" "departures"
               (JS.Int Schedule.Sample.dayStart) Schedule.Sample.start in
    (1 <= k <= 20)%nat
    /\ Schedule.st_trace r.2
       = (Schedule.st_trace Schedule.Sample.start
          ++ Schedule.fetchesFrom 1 k)%list
    /\ Schedule.st_cache r.2 = Schedule.st_cache Schedule.Sample.start
    /\ forall res, r.1 = JS.Ok res -> Schedule.pagesScanned res <= Z.of_nat k.
Proof.
  exact (aggregate_fetches_at_most_20 Schedule.Sample.clock
           Schedule.Sample.upstreamOtherCarrier "ORD" "departures"
           (JS.Int Schedule.Sample.dayStart) Schedule.Sample.start).
Defined.

Lemma aggregate_flights_kept_witness :
  exists res s',
    Schedule.aggregate Schedule.Sample.clock Schedule.Sample.upstreamBoundary
      "ORD" "departures" (JS.Int Schedule.Sample.dayStart)
      Schedule.Sample.start = (JS.Ok res, s')
    /\ Schedule.flights res = [Schedule.Sample.ua100]
    /\ Forall (Schedule.keptFlight "departures"
                 (Schedule.addNum (JS.Int Schedule.Sample.dayStart) 86400))
         (Schedule.flights res)
    /\ 0 <= Schedule.total res <= Schedule.totalFetched res.
Proof.
  eexists _, _. split; [vm_compute; reflexivity|]. split; [reflexivity|].
  refine (let H := aggregate_flights_kept Schedule.Sample.clock
            Schedule.Sample.upstreamBoundary "ORD" "departures"
            (JS.Int Schedule.Sample.dayStart) Schedule.Sample.start _ _ _ in
          conj (proj1 H) (proj2 (proj2 H))).
  vm_compute. reflexivity.
Defined.

(** X3.  An immediate repeat.  When a request was answered 200 and its
    entry has not expired at the reading the next lookup takes, the same
    request is answered 200 again with the same data and [cached: true],
    whatever the upstream would answer: the cache and [lastFR24Request]
    stay as they are and the only operation is the cache lookup. *)
Theorem handler_repeat_is_cached (now1 now2 : nat -> Z)
    (up1 up2 : Z -> Schedule.response) (q : Schedule.query)
    (s s1 : Schedule.state) (r : Schedule.http_response) :
  Schedule.handler now1 up1 q s = Some (r, s1) ->
  Schedule.status r = 200 ->
  (forall e, OMap.get (Schedule.cacheKeyOf q) (Schedule.st_cache s1) = Some e ->
             now2 (S (Schedule.st_reads s1)) <= Schedule.expires e) ->
  exists d c,
    Schedule.resp_body r = Schedule.BJson d c
    /\ Schedule.handler now2 up2 q s1
       = Some (Schedule.Respond 200 (Some (Schedule.ttlOf now2 q s1 / 1000))
                 (Schedule.BJson d true),
               Schedule.State (Schedule.st_cache s1) (Schedule.st_last s1)
                 (S (Schedule.st_reads s1) + 1)
                 (Schedule.st_trace s1
                  ++ [Schedule.EvCacheGet (Schedule.cacheKeyOf q)])).
Proof.
  intros H Hst Hlive.
  destruct (handler_ok_cached now1 up1 q s r s1 H Hst) as (Hv & e & c & Hg & Hb).
  exists (Schedule.data e), c. split; [done|].
  apply handler_hit; [done|done|by apply Hlive].
Qed.

Lemma handler_repeat_is_cached_witness :
  exists r s1 d c,
    Schedule.handler Schedule.Sample.clock Schedule.Sample.upstreamBoundary
      (Schedule.Sample.request "1704067200") Schedule.Sample.start
    = Some (r, s1)
    /\ Schedule.resp_body r = Schedule.BJson d c
    /\ Schedule.Sample.observe
         (Schedule.handler Schedule.Sample.clock
            (Schedule.Sample.upstreamAlways Schedule.NetAbort)
            (Schedule.Sample.request "1704067200") s1)
       = Some (200, Schedule.BJson d true,
               (Schedule.st_trace s1
                ++ [Schedule.EvCacheGet
                      (Schedule.cacheKeyOf
                         (Schedule.Sample.request "1704067200"))])%list).
Proof.
  eexists _, _. 
  assert (H1 : Schedule.handler Schedule.Sample.clock
                 Schedule.Sample.upstreamBoundary
                 (Schedule.Sample.request "1704067200") Schedule.Sample.start
               = Some (Schedule.Respond 200 (Some 60)
                         (Schedule.BJson
                            (Schedule.DAgg
                               (Schedule.AggResult [Schedule.Sample.ua100] 1 3 2 3
                                  "ORD" "departures")) false),
                       Schedule.State
                         [("agg:ORD:departures:1704067200",
                           Schedule.Entry
                             (Schedule.DAgg
                                (Schedule.AggResult [Schedule.Sample.ua100] 1 3
                                   2 3 "ORD" "departures"))
                             1704070060000 1704070000000)]
                         1704070000000 7
                         [Schedule.EvCacheGet "agg:ORD:departures:1704067200";
                          Schedule.EvFetch 1; Schedule.EvFetch 2;
                          Schedule.EvCacheSet "agg:ORD:departures:1704067200"]))
    by (vm_compute; reflexivity).
  destruct (handler_repeat_is_cached Schedule.Sample.clock Schedule.Sample.clock
              Schedule.Sample.upstreamBoundary
              (Schedule.Sample.upstreamAlways Schedule.NetAbort) _ _ _ _ H1)
    as (d & c & Hb & H2).
  - reflexivity.
  - intros e He. vm_compute in He. injection He as <-. vm_compute. discriminate.
  - exists d, c. split; [exact H1|]. split; [exact Hb|]. by rewrite H2.
Defined.

Lemma handler_failure_not_cached_witness :
  exists r s',
    Schedule.handler Schedule.Sample.clock
      (Schedule.Sample.upstreamAlways (Schedule.Http 503 None))
      (Schedule.Sample.request "1704067200") Schedule.Sample.start
    = Some (r, s')
    /\ Schedule.status r = 500
    /\ (Schedule.st_cache s' = Schedule.st_cache Schedule.Sample.start
        \/ Schedule.st_cache s'
           = OMap.delete
               (Schedule.cacheKeyOf (Schedule.Sample.request "1704067200"))
               (Schedule.st_cache Schedule.Sample.start)).
Proof.
  eexists _, _. split; [vm_compute; reflexivity|]. split; [reflexivity|].
  eapply (handler_failure_not_cached Schedule.Sample.clock
            (Schedule.Sample.upstreamAlways (Schedule.Http 503 None))).
  - vm_compute. reflexivity.
  - vm_compute. discriminate.
Defined.

Lemma handler_fetch_errors_witness :
  option_map (fun rs => (Schedule.status rs.1, Schedule.resp_body rs.1))
    (Schedule.handler Schedule.Sample.clock
       (Schedule.Sample.upstreamAlways Schedule.NetAbort)
       (Schedule.Sample.request "1704067200") Schedule.Sample.start)
  = Some (504, Schedule.BError "FR24 timeout")
  /\ option_map (fun rs => (Schedule.status rs.1, Schedule.resp_body rs.1))
       (Schedule.handler Schedule.Sample.clock
          (Schedule.Sample.upstreamAlways (Schedule.Http 503 None))
          (Schedule.Sample.request "1704067200") Schedule.Sample.start)
     = Some (500, Schedule.BError ("FR24 returned " ++ JS.showZ 503))
  /\ option_map (fun rs => (Schedule.status rs.1, Schedule.resp_body rs.1))
       (Schedule.handler Schedule.Sample.clock
          (Schedule.Sample.upstreamAlways (Schedule.Http 200 None))
          (Schedule.Sample.request "1704067200") Schedule.Sample.start)
     = Some (500, Schedule.BError "No schedule data in response")
  /\ option_map (fun rs => (Schedule.status rs.1, Schedule.resp_body rs.1))
       (Schedule.handler Schedule.Sample.clock
          (Schedule.Sample.upstreamAlways (Schedule.NetError "fetch failed"))
          (Schedule.Sample.request "1704067200") Schedule.Sample.start)
     = Some (500, Schedule.BError "fetch failed").
Proof.
  repeat apply conj.
  - apply (handler_fetch_errors Schedule.Sample.clock
             (Schedule.Sample.upstreamAlways Schedule.NetAbort));
      reflexivity.
  - apply (proj1 (proj2 (proj2 (handler_fetch_errors Schedule.Sample.clock
             (Schedule.Sample.upstreamAlways (Schedule.Http 503 None))
             (Schedule.Sample.request "1704067200") Schedule.Sample.start
             eq_refl eq_refl))) 503 None); [reflexivity|lia].
  - apply (proj2 (proj2 (proj2 (handler_fetch_errors Schedule.Sample.clock
             (Schedule.Sample.upstreamAlways (Schedule.Http 200 None))
             (Schedule.Sample.request "1704067200") Schedule.Sample.start
             eq_refl eq_refl))) 200); [reflexivity|lia].
  - apply (proj1 (proj2 (handler_fetch_errors Schedule.Sample.clock
             (Schedule.Sample.upstreamAlways (Schedule.NetError "fetch failed"))
             (Schedule.Sample.request "1704067200") Schedule.Sample.start
             eq_refl eq_refl)) "fetch failed"). reflexivity.
Defined.

Lemma handler_single_page_witness :
  let q := Schedule.Query (JS.VStr "ORD") (JS.VStr "arrivals")
             (JS.VStr "1704067200") (JS.VStr "abc") in
  Schedule.firstPageOf q = 1
  /\ exists s' e,
       Schedule.handler Schedule.Sample.clock Schedule.Sample.upstreamOtherCarrier
         q Schedule.Sample.start
       = Some (Schedule.Respond 200
                 (Some (Schedule.ttlOf Schedule.Sample.clock q
                          Schedule.Sample.start / 1000))
                 (Schedule.BJson
                    (Schedule.DPage
                       (Schedule.Sched (Some 3) (Some [Some Schedule.Sample.ua100])))
                    false), s')
       /\ Schedule.st_trace s'
          = (Schedule.st_trace Schedule.Sample.start
             ++ [Schedule.EvCacheGet (Schedule.cacheKeyOf q);
                 Schedule.EvFetch (Schedule.firstPageOf q);
                 Schedule.EvCacheSet (Schedule.cacheKeyOf q)])%list
       /\ OMap.get (Schedule.cacheKeyOf q) (Schedule.st_cache s') = Some e
       /\ Schedule.data e
          = Schedule.DPage
              (Schedule.Sched (Some 3) (Some [Some Schedule.Sample.ua100]))
       /\ exists k,
            (Schedule.st_reads Schedule.Sample.start <= k < Schedule.st_reads s')%nat
            /\ Schedule.expires e
               = Schedule.Sample.clock k
                 + Schedule.ttlOf Schedule.Sample.clock q Schedule.Sample.start.
Proof.
  intros q. split; [reflexivity|].
  apply (handler_single_page Schedule.Sample.clock
           Schedule.Sample.upstreamOtherCarrier q Schedule.Sample.start 200);
    try reflexivity; try discriminate. lia.
Defined.

(** * Further properties of the caches *)

Lemma omap_length_set_in {V} k (v : V) (m : OMap.t V) :
  k ∈ OMap.keys m -> length (OMap.set k v m) = length m.
Proof.
  induction m as [|[k' v'] m IH]; simpl; [by intros ?%elem_of_nil|].
  rewrite elem_of_cons. simpl.
  destruct (String.eqb_spec k k') as [->|Hne]; simpl; [done|].
  intros [->|H]; [done|]. by rewrite IH.
Qed.

(** X9.  A write to a key that is already in a full schedule cache still
    evicts the oldest entry, although no room is needed: the cache is
    left with [MAX_CACHE_SIZE - 1] entries, the oldest key is gone, the
    written key holds the new entry and the other keys are as before. *)
Theorem schedule_cacheSet_refresh_at_capacity {D : Type}
    (c : Schedule.cache D) (oldest key : string) (now_e now_t : Z) (d : D)
    (ttl : Z) :
  NoDup (OMap.keys c) ->
  OMap.size c = Schedule.MAX_CACHE_SIZE ->
  head (OMap.keys c) = Some oldest ->
  key ∈ OMap.keys c -> key <> oldest ->
  let c' := Schedule.cacheSet now_e now_t key d ttl c in
  OMap.size c' = Schedule.MAX_CACHE_SIZE - 1
  /\ OMap.get oldest c' = None
  /\ OMap.get key c' = Some (Schedule.Entry d (now_e + ttl) now_t)
  /\ forall k, k <> key -> k <> oldest -> OMap.get k c' = OMap.get k c.
Proof.
  intros Hnd Hsize Hhead Hin Hne. cbv zeta. unfold Schedule.cacheSet.
  rewrite Hsize. change (Schedule.MAX_CACHE_SIZE >=? Schedule.MAX_CACHE_SIZE)
    with true. cbv iota.
  destruct c as [|[k0 e0] m]; [done|]. simpl in Hhead. injection Hhead as ->.
  simpl in Hnd. apply NoDup_cons in Hnd as [Hk0 Hnd].
  unfold OMap.delete_first. simpl OMap.keys. cbv iota. simpl OMap.delete.
  rewrite String.eqb_refl, omap_delete_notin by done.
  simpl in Hin. apply elem_of_cons in Hin as [?|Hin]; [done|].
  repeat split.
  - unfold OMap.size in *. rewrite omap_length_set_in by done.
    simpl length in Hsize. lia.
  - rewrite omap_get_set_ne by done.
    destruct (OMap.get oldest m) eqn:Hg; [|done].
    exfalso. apply Hk0, omap_get_in. by rewrite Hg.
  - apply omap_get_set_eq.
  - intros k Hk Hko. rewrite omap_get_set_ne by done. simpl.
    by destruct (String.eqb_spec k oldest).
Qed.

Lemma sample_writes_NoDup :
  NoDup (map Schedule.w_key (Schedule.Sample.writes 201)).
Proof. apply (bool_decide_unpack _). by vm_compute. Qed.

Lemma schedule_cacheSet_refresh_at_capacity_witness :
  let c := Schedule.cacheSets (Schedule.Sample.writes 200) OMap.empty in
  let c' := Schedule.cacheSet 5 5 "k7" 777 60000 c in
  OMap.size c' = Schedule.MAX_CACHE_SIZE - 1
  /\ OMap.get "k0" c' = None
  /\ OMap.get "k7" c' = Some (Schedule.Entry 777 (5 + 60000) 5)
  /\ forall k, k <> "k7" -> k <> "k0" -> OMap.get k c' = OMap.get k c.
Proof.
  intros c.
  apply (schedule_cacheSet_refresh_at_capacity c "k0" "k7" 5 5 777 60000).
  - apply (bool_decide_unpack _). by vm_compute.
  - by vm_compute.
  - by vm_compute.
  - apply (bool_decide_unpack _). by vm_compute.
  - discriminate.
Defined.

Lemma schedule_cache_bounded_witness :
  OMap.size (Schedule.cacheSets (Schedule.Sample.writes 250) OMap.empty)
  <= Schedule.MAX_CACHE_SIZE.
Proof.
  apply (schedule_cache_bounded (Schedule.Sample.writes 250) OMap.empty).
  vm_compute. discriminate.
Defined.

Lemma schedule_cache_evicts_oldest_witness :
  let w0 := Schedule.Write "k0" 0 60000 0 0 in
  let ws := tail (Schedule.Sample.writes 201) in
  let c := Schedule.cacheSets (w0 :: ws) OMap.empty in
  OMap.size c = Schedule.MAX_CACHE_SIZE
  /\ (forall now, Schedule.cacheGet now "k0" c = (None, c))
  /\ (forall w now, w ∈ ws -> now <= Schedule.w_now_e w + Schedule.w_ttl w ->
        Schedule.cacheGet now (Schedule.w_key w) c
        = (Some (Schedule.entryOf w), c)).
Proof.
  intros w0 ws.
  apply (schedule_cache_evicts_oldest w0 ws).
  - by vm_compute.
  - exact sample_writes_NoDup.
Defined.

(** X10.  The flight-times cache never holds more than 201 entries,
    whatever is written. *)
Theorem flight_cache_bounded {D : Type} (ws : list (string * D * Z))
    (c : FlightTimes.cache D) :
  OMap.size c <= 201 -> OMap.size (FlightTimes.setCaches ws c) <= 201.
Proof.
  revert c. induction ws as [|w ws IH]; intros c Hc; [done|].
  simpl. apply IH. by apply flight_setCache_size.
Qed.

Lemma flight_cache_bounded_witness :
  OMap.size
    (FlightTimes.setCaches (map (fun k => (k, tt, 0)) (FlightTimes.flightKeys 250))
       OMap.empty) <= 201.
Proof.
  apply (flight_cache_bounded _ OMap.empty). vm_compute. discriminate.
Defined.

(** * Further properties of the per-client limiter *)

(** X11.  The log of a client never grows beyond five timestamps: a log of
    at most five entries has at most five after a check of any client. *)
Theorem limiter_log_bounded (now : Z) (ip ip' : string)
    (m : gmap string (list Z)) :
  (length (FlightTimes.ipLogOf m ip') <= 5)%nat ->
  (length (FlightTimes.ipLogOf (FlightTimes.isRateLimitedFor now ip m).2 ip')
   <= 5)%nat.
Proof.
  intros Hlen. destruct (decide (ip = ip')) as [->|Hne].
  - pose proof (prune_length now (FlightTimes.ipLogOf m ip')) as Hp.
    unfold FlightTimes.isRateLimitedFor.
    destruct (Nat.leb_spec 5 (length (FlightTimes.prune now (FlightTimes.ipLogOf m ip'))));
      cbn [snd]; rewrite ipLogOf_insert; [lia|].
    rewrite length_app. simpl. lia.
  - by rewrite isRateLimitedFor_other.
Qed.

Lemma limiter_log_bounded_witness :
  (length (FlightTimes.ipLogOf
             (FlightTimes.isRateLimitedFor 5 "10.0.0.1" ∅).2 "10.0.0.1")
   <= 5)%nat.
Proof.
  apply (limiter_log_bounded 5 "10.0.0.1" "10.0.0.1" ∅).
  unfold FlightTimes.ipLogOf. rewrite lookup_empty. simpl. lia.
Defined.

(** X12.  A check of one client leaves the log of every other client, and
    so the answer to its next check, as they were. *)
Theorem limiter_clients_independent (now now' : Z) (ip ip' : string)
    (m : gmap string (list Z)) :
  ip <> ip' ->
  FlightTimes.ipLogOf (FlightTimes.isRateLimitedFor now ip m).2 ip'
  = FlightTimes.ipLogOf m ip'
  /\ (FlightTimes.isRateLimitedFor now' ip'
        (FlightTimes.isRateLimitedFor now ip m).2).1
     = (FlightTimes.isRateLimitedFor now' ip' m).1.
Proof.
  intros Hne. pose proof (isRateLimitedFor_other now ip ip' m Hne) as Hlog.
  split; [done|]. unfold FlightTimes.isRateLimitedFor at 1 3.
  rewrite Hlog. by destruct (5 <=? _)%nat.
Qed.

Lemma limiter_clients_independent_witness :
  FlightTimes.ipLogOf (FlightTimes.isRateLimitedFor 7 "10.0.0.1" ∅).2 "10.0.0.2"
  = FlightTimes.ipLogOf ∅ "10.0.0.2"
  /\ (FlightTimes.isRateLimitedFor 8 "10.0.0.2"
        (FlightTimes.isRateLimitedFor 7 "10.0.0.1" ∅).2).1
     = (FlightTimes.isRateLimitedFor 8 "10.0.0.2" ∅).1.
Proof.
  apply (limiter_clients_independent 7 8 "10.0.0.1" "10.0.0.2" ∅). discriminate.
Defined.

(** * Further properties of the flight-times endpoint *)

Lemma clientOf_nonempty raw real_ip : FlightTimes.clientOf raw real_ip <> "".
Proof.
  unfold FlightTimes.clientOf.
  destruct (String.eqb_spec (JS.trim (JS.beforeComma raw)) ""); simpl; [|done].
  destruct real_ip as [r|]; [|done].
  by destruct (String.eqb_spec r "").
Qed.

Lemma beforeComma_first a b :
  JS.beforeComma a = a -> JS.beforeComma (a ++ String "," b) = a.
Proof.
  induction a as [|c a IH]; simpl; [done|].
  destruct (Ascii.eqb c ","); [done|]. intros [= H]. by rewrite IH.
Qed.

(** X13.  The client identifier is never empty; it is 'unknown' when
    neither header gives one; and of a forwarded-for header with several
    comma-separated values only the first one counts. *)
Theorem getClientIp_client (h : FlightTimes.headers) :
  (forall ip, FlightTimes.getClientIp h = JS.Ok ip -> ip <> "")
  /\ (FlightTimes.x_forwarded_for h = JS.VUndefined ->
      FlightTimes.x_real_ip h = None ->
      FlightTimes.getClientIp h = JS.Ok "unknown")
  /\ (forall a b, FlightTimes.x_forwarded_for h = JS.VStr (a ++ String "," b) ->
      JS.beforeComma a = a ->
      FlightTimes.getClientIp h
      = FlightTimes.getClientIp
          (FlightTimes.Headers (JS.VStr a) (FlightTimes.x_real_ip h))).
Proof.
  split; [|split].
  - intros ip. unfold FlightTimes.getClientIp.
    destruct (FlightTimes.x_forwarded_for h) as [| |n|s|l];
      [intros [= <-]; apply clientOf_nonempty..|].
    destruct l as [|v l]; [done|].
    destruct v; try done. intros [= <-]; apply clientOf_nonempty.
  - intros Hx Hr. unfold FlightTimes.getClientIp. by rewrite Hx, Hr.
  - intros a b Hx Ha. unfold FlightTimes.getClientIp. rewrite Hx. simpl.
    unfold FlightTimes.clientOf. rewrite beforeComma_first by done.
    by rewrite Ha.
Qed.

Lemma getClientIp_client_witness :
  FlightTimes.getClientIp (FlightTimes.Headers JS.VUndefined None)
  = JS.Ok "unknown"
  /\ FlightTimes.getClientIp
       (FlightTimes.Headers (JS.VStr (" 203.0.113.7 " ++ String "," " 10.0.0.1"))
          None)
     = FlightTimes.getClientIp
         (FlightTimes.Headers (JS.VStr " 203.0.113.7 ") None)
  /\ FlightTimes.getClientIp
       (FlightTimes.Headers (JS.VStr " 203.0.113.7 ") None)
     = JS.Ok "203.0.113.7".
Proof.
  destruct (getClientIp_client (FlightTimes.Headers JS.VUndefined None))
    as (_ & Hu & _).
  destruct (getClientIp_client
              (FlightTimes.Headers
                 (JS.VStr (" 203.0.113.7 " ++ String "," " 10.0.0.1")) None))
    as (_ & _ & Hf).
  split; [apply Hu; reflexivity|].
  split; [apply (Hf " 203.0.113.7 " " 10.0.0.1"); reflexivity|reflexivity].
Defined.



Example allowOrigin_examples :
  FlightTimes.allowOrigin (Some "http://localhost:3000") = "http://localhost:3000"
  /\ FlightTimes.allowOrigin (Some "http://localhost") = "http://localhost"
  /\ FlightTimes.allowOrigin (Some "http://localhost:") = "https://theblueboard.co"
  /\ FlightTimes.allowOrigin (Some "http://localhost.evil.example")
     = "https://theblueboard.co"
  /\ FlightTimes.allowOrigin (Some "https://localhost:3000")
     = "https://theblueboard.co"
  /\ FlightTimes.allowOrigin None = "https://theblueboard.co".
Proof. repeat split. Qed.

(** ** The forms of a flight designator *)

Lemma cleaned_trimStart s :
  JS.removeSpaces (JS.toUpperCase (JS.trimStart s))
  = JS.removeSpaces (JS.toUpperCase s).
Proof.
  induction s as [|c s IH]; simpl; [done|].
  destruct (JS.isSpace c) eqn:Hc; simpl; by rewrite isSpace_upperChar, Hc.
Qed.

Lemma cleaned_trimEnd s :
  JS.removeSpaces (JS.toUpperCase (JS.trimEnd s))
  = JS.removeSpaces (JS.toUpperCase s).
Proof.
  induction s as [|c s IH]; [done|].
  cbn [JS.trimEnd JS.toUpperCase JS.removeSpaces].
  rewrite isSpace_upperChar, <- IH.
  destruct (JS.trimEnd s) as [|c' r].
  - destruct (JS.isSpace c) eqn:Hc; simpl; [done|].
    by rewrite isSpace_upperChar, Hc.
  - cbn [JS.toUpperCase JS.removeSpaces]. by rewrite isSpace_upperChar.
Qed.

Lemma cleaned_trim s :
  JS.removeSpaces (JS.toUpperCase (JS.trim s))
  = JS.removeSpaces (JS.toUpperCase s).
Proof. unfold JS.trim. by rewrite cleaned_trimEnd, cleaned_trimStart. Qed.



Lemma isDigit_clean c :
  JS.isDigit c = true -> JS.isSpace c = false /\ JS.upperChar c = c.
Proof. destruct c as [[] [] [] [] [] [] [] []]; by intros. Qed.

Lemma isDigit_not_letter c :
  JS.isDigit c = true -> Ascii.eqb "U" c = false /\ Ascii.eqb "L" c = false.
Proof. destruct c as [[] [] [] [] [] [] [] []]; by intros. Qed.

Lemma allDigits_clean ds : JS.allDigits ds = true -> JS.clean ds.
Proof.
  induction ds as [|c ds IH]; [done|]. simpl.
  intros [Hc Hd]%andb_true_iff. destruct (isDigit_clean c Hc) as [Hs Hu].
  destruct (IH Hd) as [Hn Hup]. split; simpl.
  - by rewrite Hs, Hn.
  - by rewrite Hu, Hup.
Qed.

Lemma allDigits_count ds :
  JS.allDigits ds = true ->
  JS.countDigits ds = String.length ds /\ JS.dropDigits ds = "".
Proof.
  induction ds as [|c ds IH]; [done|]. simpl.
  intros [Hc Hd]%andb_true_iff. rewrite Hc.
  destruct (IH Hd) as [-> ->]. done.
Qed.

Lemma addCarrier_digits ds :
  JS.isDigits1to4 ds = true -> FlightTimes.addCarrier ds = "UAL" ++ ds.
Proof.
  intros Hd. unfold FlightTimes.addCarrier.
  assert (JS.startsWith "UA" ds = false) as ->.
  { destruct ds as [|c ds]; [done|].
    unfold JS.isDigits1to4 in Hd. simpl in Hd.
    apply andb_true_iff in Hd as [_ [Hc _]%andb_true_iff].
    cbn [JS.startsWith]. by rewrite (proj1 (isDigit_not_letter c Hc)). }
  simpl andb. cbv iota. by rewrite Hd.
Qed.

Lemma addCarrier_UA_digit c r :
  JS.isDigit c = true ->
  FlightTimes.addCarrier ("UA" ++ String c r) = "UAL" ++ String c r.
Proof.
  intros Hc. unfold FlightTimes.addCarrier.
  change ("UA" ++ String c r) with (String "U" (String "A" (String c r))).
  assert (JS.startsWith "UAL" (String "U" (String "A" (String c r))) = false)
    as ->.
  { cbn [JS.startsWith]. by rewrite (proj2 (isDigit_not_letter c Hc)). }
  change (JS.startsWith "UA" (String "U" (String "A" (String c r)))) with true.
  cbn [andb negb JS.slice]. unfold JS.isDigits1to4.
  change (JS.allDigits ("UAL" ++ String c r)) with false.
  by rewrite andb_false_r.
Qed.

(** X16.  A flight number of one to four digits, alone or after UA, ua or
    UAL, is normalised to UAL followed by the digits, and the result
    is a designator the handler accepts. *)
Theorem normalize_flight_forms (ds : string) :
  JS.isDigits1to4 ds = true ->
  FlightTimes.normalizeString ds = "UAL" ++ ds
  /\ FlightTimes.normalizeString ("UA" ++ ds) = "UAL" ++ ds
  /\ FlightTimes.normalizeString ("ua" ++ ds) = "UAL" ++ ds
  /\ FlightTimes.normalizeString ("UAL" ++ ds) = "UAL" ++ ds
  /\ FlightTimes.isValidFlight ("UAL" ++ ds) = true.
Proof.
  intros Hd.
  assert (JS.allDigits ds = true) as Hall.
  { unfold JS.isDigits1to4 in Hd. by apply andb_true_iff in Hd as [_ ?]. }
  pose proof (allDigits_clean ds Hall) as Hclean.
  assert (FlightTimes.normalizeString ("UA" ++ ds) = "UAL" ++ ds) as Hua.
  { unfold FlightTimes.normalizeString. rewrite clean_fixed.
    - destruct ds as [|c r]; [done|]. apply addCarrier_UA_digit.
      simpl in Hall. by apply andb_true_iff in Hall as [? _].
    - destruct Hclean as [Hn Hu]. split; [exact Hn|].
      change (String "U" (String "A" (JS.toUpperCase ds)) = "UA" ++ ds).
      by rewrite Hu. }
  split; [|split; [|split; [|split]]].
  - unfold FlightTimes.normalizeString. rewrite clean_fixed by done.
    by apply addCarrier_digits.
  - exact Hua.
  - rewrite <- Hua. unfold FlightTimes.normalizeString.
    by rewrite !cleaned_trim.
  - unfold FlightTimes.normalizeString.
    rewrite clean_fixed by (by apply clean_UAL). apply addCarrier_UAL.
  - change ("UAL" ++ ds) with (String "U" (String "A" (String "L" ds))).
    unfold FlightTimes.isValidFlight.
    destruct (allDigits_count ds Hall) as [-> ->].
    unfold JS.isDigits1to4 in Hd.
    apply andb_true_iff in Hd as [[H1 H4]%andb_true_iff _].
    by rewrite H1, H4.
Qed.

Lemma normalize_flight_forms_witness :
  FlightTimes.normalizeString "838" = "UAL838"
  /\ FlightTimes.normalizeString "UA838" = "UAL838"
  /\ FlightTimes.normalizeString "ua838" = "UAL838"
  /\ FlightTimes.normalizeString "UAL838" = "UAL838"
  /\ FlightTimes.isValidFlight "UAL838" = true.
Proof. apply (normalize_flight_forms "838"). reflexivity. Defined.

Lemma eqbIgnoreCase_upper c d :
  JS.upperChar c = c -> JS.upperChar d = d ->
  JS.eqbIgnoreCase c d = true -> c = d.
Proof.
  unfold JS.eqbIgnoreCase. intros -> ->. by intros ?%Ascii.eqb_eq.
Qed.

Lemma valid_clean_shape f :
  JS.clean f -> FlightTimes.isValidFlight f = true ->
  exists c r, f = "UAL" ++ String c r /\ JS.isDigit c = true.
Proof.
  intros [_ Hu] Hv.
  destruct f as [|u [|a [|l rest]]]; try done.
  simpl in Hu. injection Hu as Hu1 Hu2 Hu3 _.
  unfold FlightTimes.isValidFlight in Hv.
  apply andb_true_iff in Hv as [Hv _].
  apply andb_true_iff in Hv as [Hv _].
  apply andb_true_iff in Hv as [Hv Hc].
  apply andb_true_iff in Hv as [Hv Hl].
  apply andb_true_iff in Hv as [Hu' Ha].
  apply (eqbIgnoreCase_upper u "U" Hu1 eq_refl) in Hu'.
  apply (eqbIgnoreCase_upper a "A" Hu2 eq_refl) in Ha.
  apply (eqbIgnoreCase_upper l "L" Hu3 eq_refl) in Hl. subst u a l.
  destruct rest as [|c r]; [done|]. simpl in Hc.
  destruct (JS.isDigit c) eqn:Hd; [|done]. by exists c, r.
Qed.

(** X17.  The flight number shown in a response is the accepted designator
    with UA for UAL, and it names the same flight: normalising it
    gives the designator back. *)
Theorem displayFlight_round_trip (s : string) :
  FlightTimes.isValidFlight (FlightTimes.normalizeString s) = true ->
  FlightTimes.displayFlight (FlightTimes.normalizeString s)
  = "UA" ++ JS.slice 3 (FlightTimes.normalizeString s)
  /\ FlightTimes.normalizeString
       (FlightTimes.displayFlight (FlightTimes.normalizeString s))
     = FlightTimes.normalizeString s.
Proof.
  intros Hv.
  assert (JS.clean (FlightTimes.normalizeString s)) as Hc
    by apply addCarrier_clean, clean_cleaned.
  destruct (valid_clean_shape _ Hc Hv) as (c & r & Hf & Hd).
  rewrite Hf in Hc |- *.
  assert (FlightTimes.displayFlight ("UAL" ++ String c r) = "UA" ++ String c r)
    as Hdisp by done.
  rewrite Hdisp. split; [done|].
  unfold FlightTimes.normalizeString. rewrite clean_fixed.
  - by apply addCarrier_UA_digit.
  - destruct Hc as [Hn Hu]. split; [exact Hn|].
    simpl in Hu |- *. by injection Hu as -> ->.
Qed.

Lemma displayFlight_round_trip_witness :
  FlightTimes.displayFlight (FlightTimes.normalizeString " ual 1234a ")
  = "UA1234A"
  /\ FlightTimes.normalizeString "UA1234A"
     = FlightTimes.normalizeString " ual 1234a ".
Proof.
  exact (displayFlight_round_trip " ual 1234a " eq_refl).
Defined.

(** ** The flight-times handler before the fetch *)

Section BeforeFetchFacts.
Context {D : Type}.
Implicit Types (s : FlightTimes.state D) (req : FlightTimes.request).

(** X18.  The handler goes on to the upstream fetch only for a GET request
    whose flight parameter normalises to an accepted designator that the
    cache does not serve, and only after the call has been recorded in
    the log of the client, which held fewer than five calls of the last
    minute. *)
Theorem handlerBeforeFetch_fetches now_cache now_limit req s allow flight s' :
  FlightTimes.handlerBeforeFetch now_cache now_limit req s
  = (FlightTimes.Fetches allow flight, s') ->
  FlightTimes.method req = "GET"
  /\ FlightTimes.normalizeFlightNumber (FlightTimes.q_flight req)
     = JS.Ok flight
  /\ FlightTimes.isValidFlight flight = true
  /\ FlightTimes.getCached now_cache ("fa:" ++ flight)
       (FlightTimes.st_cache s) = (None, FlightTimes.st_cache s')
  /\ exists ip,
       FlightTimes.getClientIp (FlightTimes.req_headers req) = JS.Ok ip
       /\ (length (FlightTimes.prune now_limit
                     (FlightTimes.ipLogOf (FlightTimes.st_limits s) ip)) < 5)%nat
       /\ FlightTimes.ipLogOf (FlightTimes.st_limits s') ip
          = (FlightTimes.prune now_limit
               (FlightTimes.ipLogOf (FlightTimes.st_limits s) ip)
             ++ [now_limit])%list.
Proof.
  unfold FlightTimes.handlerBeforeFetch.
  destruct (String.eqb_spec (FlightTimes.method req) "OPTIONS"); [done|].
  destruct (String.eqb_spec (FlightTimes.method req) "GET") as [Hm|];
    simpl negb; cbv iota; [|done].
  destruct (JS.truthy (FlightTimes.q_flight req)); simpl negb; cbv iota;
    [|done].
  destruct (FlightTimes.normalizeFlightNumber (FlightTimes.q_flight req))
    as [f|e]; [|done].
  destruct (FlightTimes.isValidFlight f) eqn:Hv; simpl negb; cbv iota; [|done].
  destruct (FlightTimes.getCached now_cache ("fa:" ++ f)
              (FlightTimes.st_cache s)) as [[d|] c] eqn:Hg; [done|].
  unfold FlightTimes.isRateLimited.
  destruct (FlightTimes.getClientIp (FlightTimes.req_headers req))
    as [ip|e] eqn:Hip; [|done].
  unfold FlightTimes.isRateLimitedFor.
  destruct (Nat.leb_spec 5 (length (FlightTimes.prune now_limit
              (FlightTimes.ipLogOf (FlightTimes.st_limits s) ip))));
    [done|].
  intros [= <- <- <-]. repeat split; try done.
  exists ip. repeat split; [done|].
  cbn [FlightTimes.st_limits]. unfold FlightTimes.ipLogOf at 1.
  by rewrite lookup_insert_eq.
Qed.

(** X19.  Whatever answer is sent before the fetch, the state changes only
    as follows.  The answers 204, 405 and 400 leave the cache and the
    limiter as they are.  An answer from the cache (200) leaves both as
    they are too: it is not counted by the limiter.  The answer 429
    is not recorded in the log of the client, which holds at least five
    calls of the last minute.  No other status is sent. *)
Theorem handlerBeforeFetch_responds now_cache now_limit req s allow status b s' :
  FlightTimes.handlerBeforeFetch now_cache now_limit req s
  = (FlightTimes.Responds allow status b, s') ->
  allow = FlightTimes.allowOrigin (FlightTimes.origin req)
  /\ ((status = 204 \/ status = 405 \/ status = 400) /\ s' = s
      \/ (status = 200 /\ s' = s
          /\ exists flight e,
               FlightTimes.normalizeFlightNumber (FlightTimes.q_flight req)
               = JS.Ok flight
               /\ OMap.get ("fa:" ++ flight) (FlightTimes.st_cache s) = Some e
               /\ b = FlightTimes.CachedBody (FlightTimes.data e)
               /\ now_cache - FlightTimes.ts e <= FlightTimes.CACHE_TTL_MS)
      \/ (status = 429
          /\ exists ip,
               FlightTimes.getClientIp (FlightTimes.req_headers req)
               = JS.Ok ip
               /\ FlightTimes.ipLogOf (FlightTimes.st_limits s') ip
                  = FlightTimes.prune now_limit
                      (FlightTimes.ipLogOf (FlightTimes.st_limits s) ip)
               /\ (5 <= length (FlightTimes.ipLogOf
                                  (FlightTimes.st_limits s') ip))%nat)).
Proof.
  unfold FlightTimes.handlerBeforeFetch.
  destruct (String.eqb_spec (FlightTimes.method req) "OPTIONS");
    [intros [= <- <- <- <-]; split; [done|]; left; split; [by left|done]|].
  destruct (String.eqb_spec (FlightTimes.method req) "GET") as [Hm|];
    simpl negb; cbv iota;
    [|intros [= <- <- <- <-]; split; [done|]; left;
      split; [by right; left|done]].
  destruct (JS.truthy (FlightTimes.q_flight req)); simpl negb; cbv iota;
    [|intros [= <- <- <- <-]; split; [done|]; left;
      split; [by right; right|done]].
  destruct (FlightTimes.normalizeFlightNumber (FlightTimes.q_flight req))
    as [f|e]; [|done].
  destruct (FlightTimes.isValidFlight f) eqn:Hv; simpl negb; cbv iota;
    [|intros [= <- <- <- <-]; split; [done|]; left;
      split; [by right; right|done]].
  destruct (FlightTimes.getCached now_cache ("fa:" ++ f)
              (FlightTimes.st_cache s)) as [[d|] c] eqn:Hg.
  - intros [= <- <- <- <-]. split; [done|]. right; left.
    unfold FlightTimes.getCached in Hg.
    destruct (OMap.get ("fa:" ++ f) (FlightTimes.st_cache s)) as [e|] eqn:He;
      [|done].
    destruct (Z.gtb_spec (now_cache - FlightTimes.ts e)
                FlightTimes.CACHE_TTL_MS); [done|].
    injection Hg as <- <-.
    split; [done|]. split; [by destruct s|].
    by exists f, e.
  - unfold FlightTimes.isRateLimited.
    destruct (FlightTimes.getClientIp (FlightTimes.req_headers req))
      as [ip|e] eqn:Hip; [|done].
    unfold FlightTimes.isRateLimitedFor.
    destruct (Nat.leb_spec 5 (length (FlightTimes.prune now_limit
                (FlightTimes.ipLogOf (FlightTimes.st_limits s) ip))));
      [|done].
    intros [= <- <- <- <-]. split; [done|]. right; right.
    split; [done|]. exists ip. split; [done|].
    cbn [FlightTimes.st_limits].
    assert (FlightTimes.ipLogOf
              (<[ip:=FlightTimes.prune now_limit
                       (FlightTimes.ipLogOf (FlightTimes.st_limits s) ip)]>
                 (FlightTimes.st_limits s)) ip
            = FlightTimes.prune now_limit
                (FlightTimes.ipLogOf (FlightTimes.st_limits s) ip)) as ->
      by (unfold FlightTimes.ipLogOf at 1; by rewrite lookup_insert_eq).
    done.
Qed.

(** X20.  A request that repeats the flight parameter, which makes it an
    array, is answered by no status at all: the handler raises a
    TypeError, before it reads the cache or the limiter. *)
Theorem handlerBeforeFetch_array_raises now_cache now_limit req s arr :
  FlightTimes.method req = "GET" ->
  FlightTimes.q_flight req = JS.VArr arr ->
  FlightTimes.handlerBeforeFetch now_cache now_limit req s
  = (FlightTimes.Raises JS.TypeError, s).
Proof.
  intros Hm Hq. unfold FlightTimes.handlerBeforeFetch. by rewrite Hm, Hq.
Qed.

End BeforeFetchFacts.

Lemma handlerBeforeFetch_fetches_witness :
  FlightTimes.normalizeFlightNumber (JS.VStr " ua 838 ") = JS.Ok "UAL838"
  /\ FlightTimes.isValidFlight "UAL838" = true
  /\ exists ip,
       FlightTimes.getClientIp (FlightTimes.Headers JS.VUndefined None)
       = JS.Ok ip
       /\ FlightTimes.ipLogOf
            (snd (FlightTimes.handlerBeforeFetch (D:=Z) 0 1000
                    (FlightTimes.Request "GET" None (JS.VStr " ua 838 ")
                       (FlightTimes.Headers JS.VUndefined None))
                    (FlightTimes.State [] ∅))).(FlightTimes.st_limits) ip
          = [1000].
Proof.
  destruct (handlerBeforeFetch_fetches (D:=Z) 0 1000
              (FlightTimes.Request "GET" None (JS.VStr " ua 838 ")
                 (FlightTimes.Headers JS.VUndefined None))
              (FlightTimes.State [] ∅)
              "https://theblueboard.co" "UAL838"
              (FlightTimes.State [] (<["unknown" := [1000]]> ∅)))
    as (_ & Hn & Hv & _ & ip & Hip & _ & Hlog); [by vm_compute|].
  split; [exact Hn|]. split; [exact Hv|]. exists ip. split; [exact Hip|].
  exact Hlog.
Defined.

Lemma handlerBeforeFetch_responds_witness :
  exists e,
    OMap.get "fa:UAL838" [("fa:UAL838", FlightTimes.Entry 7 0)] = Some e
    /\ FlightTimes.CachedBody (FlightTimes.data e) = FlightTimes.CachedBody 7
    /\ 1000 - FlightTimes.ts e <= FlightTimes.CACHE_TTL_MS.
Proof.
  destruct (handlerBeforeFetch_responds (D:=Z) 1000 2000
              (FlightTimes.Request "GET" (Some "http://localhost:3000")
                 (JS.VStr "838")
                 (FlightTimes.Headers (JS.VStr "203.0.113.7") None))
              (FlightTimes.State [("fa:UAL838", FlightTimes.Entry 7 0)] ∅)
              "http://localhost:3000" 200 (FlightTimes.CachedBody 7)
              (FlightTimes.State [("fa:UAL838", FlightTimes.Entry 7 0)] ∅))
    as (_ & [[[H|[H|H]] _]|[(_ & _ & f & e & Hf & He & Hb & Ht)|[H _]]]);
    [by vm_compute|try discriminate H..].
  injection Hf as <-. exists e. split; [exact He|]. split; [|exact Ht].
  by rewrite <- Hb.
Defined.

Lemma handlerBeforeFetch_array_raises_witness :
  FlightTimes.handlerBeforeFetch (D:=Z) 0 0
    (FlightTimes.Request "GET" None (JS.VArr [JS.VStr "UA100"; JS.VStr "UA200"])
       (FlightTimes.Headers JS.VUndefined None))
    (FlightTimes.State [] ∅)
  = (FlightTimes.Raises JS.TypeError, FlightTimes.State [] ∅).
Proof.
  apply (handlerBeforeFetch_array_raises (D:=Z) 0 0
           (FlightTimes.Request "GET" None
              (JS.VArr [JS.VStr "UA100"; JS.VStr "UA200"])
              (FlightTimes.Headers JS.VUndefined None))
           (FlightTimes.State [] ∅) [JS.VStr "UA100"; JS.VStr "UA200"]);
    reflexivity.
Defined.

Lemma valid_flight_truthy v flight :
  FlightTimes.normalizeFlightNumber v = JS.Ok flight ->
  FlightTimes.isValidFlight flight = true -> JS.truthy v = true.
Proof.
  unfold FlightTimes.normalizeFlightNumber.
  destruct v as [| |n|s|l]; try (by intros [= <-]).
  - destruct (JS.truthy (JS.VNum n)); [done|]. by intros [= <-].
  - destruct s; [by intros [= <-]|done].
Qed.

(** X21.  Once the result of a fetch is stored for a flight, every GET
    request that names this flight, in whatever form, within 120 s of
    the store is answered from the cache with the stored result: the
    state is left as it is and the limiter is not asked. *)
Theorem handlerBeforeFetch_repeat_is_cached {D : Type} now_store now_cache now_limit
    req flight (d : D) (c : FlightTimes.cache D) (m : gmap string (list Z)) :
  FlightTimes.method req = "GET" ->
  FlightTimes.normalizeFlightNumber (FlightTimes.q_flight req) = JS.Ok flight ->
  FlightTimes.isValidFlight flight = true ->
  now_cache - now_store <= FlightTimes.CACHE_TTL_MS ->
  let s := FlightTimes.State
             (FlightTimes.setCache now_store ("fa:" ++ flight) d c) m in
  FlightTimes.handlerBeforeFetch now_cache now_limit req s
  = (FlightTimes.Responds (FlightTimes.allowOrigin (FlightTimes.origin req))
       200 (FlightTimes.CachedBody d), s).
Proof.
  intros Hm Hn Hv Ht s. unfold FlightTimes.handlerBeforeFetch.
  rewrite Hm, Hn, Hv, (valid_flight_truthy _ _ Hn Hv).
  change (("GET" =? "OPTIONS")%string) with false.
  change (("GET" =? "GET")%string) with true. cbn [negb].
  cbn [FlightTimes.st_cache s].
  rewrite (flight_getCached_live _ _ (FlightTimes.Entry d now_store));
    [done|apply flight_setCache_get|simpl; lia].
Qed.

Lemma handlerBeforeFetch_repeat_is_cached_witness :
  FlightTimes.handlerBeforeFetch 1100000 1100000
    (FlightTimes.Request "GET" None (JS.VStr "ua 838")
       (FlightTimes.Headers JS.VUndefined None))
    (FlightTimes.State
       (FlightTimes.setCache 1000000 ("fa:" ++ "UAL838") 7 []) ∅)
  = (FlightTimes.Responds "https://theblueboard.co" 200
       (FlightTimes.CachedBody 7),
     FlightTimes.State
       (FlightTimes.setCache 1000000 ("fa:" ++ "UAL838") 7 []) ∅).
Proof.
  apply (handlerBeforeFetch_repeat_is_cached (D:=Z) 1000000 1100000 1100000
           (FlightTimes.Request "GET" None (JS.VStr "ua 838")
              (FlightTimes.Headers JS.VUndefined None))
           "UAL838" 7 [] ∅);
    first [reflexivity | by vm_compute].
Defined.

(** ** The notation of a date is unambiguous *)

Lemma string_app_inj (a1 a2 b1 b2 : string) :
  String.length a1 = String.length a2 ->
  a1 ++ b1 = a2 ++ b2 -> a1 = a2 /\ b1 = b2.
Proof.
  revert a2. induction a1 as [|c a1 IH]; intros [|c2 a2]; try done.
  intros [= Hl].
  change (String c a1 ++ b1) with (String c (a1 ++ b1)).
  change (String c2 a2 ++ b2) with (String c2 (a2 ++ b2)).
  intros [= -> H]. destruct (IH a2 Hl H) as [-> ->]. done.
Qed.

Lemma length2 s : String.length s = 2%nat -> exists a b, s = String a (String b "").
Proof. destruct s as [|a [|b [|]]]; try done. by exists a, b. Qed.

Lemma length3 s :
  String.length s = 3%nat -> exists a b c, s = String a (String b (String c "")).
Proof. destruct s as [|a [|b [|c [|]]]]; try done. by exists a, b, c. Qed.

Lemma denotes_functional s c1 c2 :
  JSDate.denotes s c1 -> JSDate.denotes s c2 -> c1 = c2.
Proof.
  intros (y1 & mo1 & d1 & h1 & mi1 & se1 & ms1 & Hs1 & Hl1 & Hy1 & R1)
         (y2 & mo2 & d2 & h2 & mi2 & se2 & ms2 & Hs2 & Hl2 & Hy2 & R2).
  destruct Hl1 as (Lmo1 & Ld1 & Lh1 & Lmi1 & Lse1 & Lms1).
  destruct Hl2 as (Lmo2 & Ld2 & Lh2 & Lmi2 & Lse2 & Lms2).
  apply length2 in Lmo1 as (? & ? & ->), Ld1 as (? & ? & ->),
        Lh1 as (? & ? & ->), Lmi1 as (? & ? & ->), Lse1 as (? & ? & ->).
  apply length2 in Lmo2 as (? & ? & ->), Ld2 as (? & ? & ->),
        Lh2 as (? & ? & ->), Lmi2 as (? & ? & ->), Lse2 as (? & ? & ->).
  apply length3 in Lms1 as (? & ? & ? & ->), Lms2 as (? & ? & ? & ->).
  assert (String.length s = (String.length y1 + 20)%nat) as L1
    by (rewrite Hs1, string_length_app; done).
  assert (String.length s = (String.length y2 + 20)%nat) as L2
    by (rewrite Hs2, string_length_app; done).
  rewrite Hs1 in Hs2.
  apply string_app_inj in Hs2 as [-> Hrest]; [|lia].
  cbv [String.append] in Hrest. injection Hrest as -> -> -> -> -> -> -> -> -> -> -> -> ->.
  destruct R1 as (Rmo1 & Rd1 & Rh1 & Rmi1 & Rse1 & Rms1).
  destruct R2 as (Rmo2 & Rd2 & Rh2 & Rmi2 & Rse2 & Rms2).
  assert (JSDate.c_year c1 = JSDate.c_year c2) as Hyear.
  { destruct Hy1 as [[Ly1 Ry1]|(y1' & E1 & Ly1 & _ & Ry1)],
             Hy2 as [[Ly2 Ry2]|(y2' & E2 & Ly2 & _ & Ry2)].
    - congruence.
    - rewrite E2, string_length_app in Ly1. simpl in Ly1. lia.
    - rewrite E1, string_length_app in Ly2. simpl in Ly2. lia.
    - rewrite E1 in E2. apply string_app_inj in E2 as [_ ->]; [|done].
      congruence. }
  destruct c1, c2. simpl in *. congruence.
Qed.

(** X22.  Two different moments are never written the same way: on the
    positive numbers of seconds that a date can hold, [epochToISO]
    is injective, and its result is never the empty string that stands
    for a missing time. *)
Theorem epochToISO_injective (a b : Z) (str : string) :
  0 < a <= 8640000000000 ->
  0 < b <= 8640000000000 ->
  FlightTimes.epochToISO (FlightTimes.ENumber a) = JS.Ok str ->
  FlightTimes.epochToISO (FlightTimes.ENumber b) = JS.Ok str ->
  a = b /\ str <> "".
Proof.
  intros Ha Hb. unfold FlightTimes.epochToISO.
  destruct (Z.eqb_spec a 0); [lia|]. destruct (Z.eqb_spec b 0); [lia|].
  unfold JSDate.toISOString, JSDate.TimeClip.
  destruct (Z.ltb_spec 8640000000000000 (Z.abs (a * 1000))); [lia|].
  destruct (Z.ltb_spec 8640000000000000 (Z.abs (b * 1000))); [lia|].
  intros [= Ea] [= Eb].
  destruct (isoOfTime_denotes (a * 1000)) as (ca & _ & Hca & Hda); [lia|].
  destruct (isoOfTime_denotes (b * 1000)) as (cb & _ & Hcb & Hdb); [lia|].
  rewrite Ea in Hda. rewrite Eb in Hdb.
  pose proof (denotes_functional _ _ _ Hda Hdb) as Hc. subst cb.
  split; [lia|].
  destruct Hda as (y & mo & d & h & mi & se & ms & -> & _).
  intros Hempty. apply (f_equal String.length) in Hempty.
  rewrite string_length_app in Hempty. simpl in Hempty. lia.
Qed.

Lemma epochToISO_injective_witness :
  1704067200 = 1704067200 /\ "2024-01-01T00:00:00.000Z" <> "".
Proof.
  apply (epochToISO_injective 1704067200 1704067200
           "2024-01-01T00:00:00.000Z");
    first [lia | by vm_compute].
Defined.
